(** * Kavach zone aggregation: the storage layer and its routes

    A shallow embedding of [server/storage.ts] (class [DatabaseStorage]),
    of the tables of [shared/schema.ts] and of the two route handlers of
    [server/routes.ts] that reach the zone table
    ([PATCH /api/reports/:id/approve] and [POST /api/zones]).

    Around them: the routes that list and delete zones, delete reports and
    set their status, the authentication middleware, signup, login and the
    profile update of [server/routes.ts] with the account operations of
    the storage class, the colours the client gives a zone, and the CSV
    export of the admin dashboard.  [jsonwebtoken] and [bcrypt] are
    parameters.

    Modelling choices, all read off the source:
    - a [decimal(p, 8)] column value is the integer number of 10^-8 degrees
      it denotes, so SQL's exact [DECIMAL] arithmetic is arithmetic on [Z];
    - JavaScript's [Number(...)] turns such a column value into the nearest
      binary64 number; [Math.abs], [-] and [<] are the binary64 operations;
    - nullable columns are [option]s; an insert field that may be omitted
      (column default applies) or be an explicit [null] is an
      [option (option _)];
    - the database is a pair of row lists in listing order; an insert
      appends, an update rewrites rows in place;
    - [new Date()], SQL's [now()] and [gen_random_uuid()] are read from two
      oracles indexed by the number of draws made so far;
    - the store is a generic record store: I/O failures are not modelled,
      NOT NULL constraints are; the operations compute on unbounded
      integers, and a theorem about a write the store could refuse for its
      range (a 32-bit [integer], a [decimal(p, 8)]) states that range as a
      hypothesis ([int4], [fitsDecimal]);
    - an update keeps a row at its place in the listing, which PostgreSQL
      does not promise: where a second merge depends on which row comes
      first, the result is stated for every order of the rows;
    - [id] is the primary key of [unsafe_zones]: the results that depend
      on it assume a table without a repeated id, which both aggregation
      paths keep ([distinct_ids_kept]). *)

From Stdlib Require Import ZArith List String Bool Lia Permutation.
From Stdlib Require Import Floats.PrimFloat Numbers.Cyclic.Int63.Uint63.
Import ListNotations.

Set Warnings "-inexact-float".
Local Open Scope string_scope.
Local Open Scope Z_scope.

(** ** JavaScript values the storage code computes with *)

(** A [decimal(_, 8)] value, counted in units of 10^-8. *)
Definition decimal := Z.

Module Js.

(** [Number(s)] for the text of a [decimal(_, 8)] value: the binary64
    number nearest to [s / 10^8].  Both [|s|] (below 2^53 for the column
    precisions of the schema) and 10^8 are binary64 numbers, and IEEE
    division rounds to nearest, as the parse of the decimal text does. *)
Definition Number (s : decimal) : float :=
  let m := PrimFloat.of_uint63 (Uint63.of_Z (Z.abs s)) in
  PrimFloat.div (if s <? 0 then PrimFloat.opp m else m) 100000000%float.

(** [Number(v)] for a value that may be [null]: [Number(null)] is [0]. *)
Definition NumberOrNull (v : option decimal) : float :=
  match v with
  | Some s => Number s
  | None => 0%float
  end.

(** [Math.abs(a - b)]. *)
Definition absDiff (a b : float) : float :=
  PrimFloat.abs (PrimFloat.sub a b).

(** [n || d] for a nullable integer: [null] and [0] are falsy. *)
Definition orElse (n : option Z) (d : Z) : Z :=
  match n with
  | Some v => if v =? 0 then d else v
  | None => d
  end.

(** Truthiness of a nullable column text: the text of a decimal is never
    empty, so only [null] is falsy. *)
Definition truthy {A : Type} (v : option A) : bool :=
  match v with
  | Some _ => true
  | None => false
  end.

End Js.

(** ** The tables of [shared/schema.ts] *)

Module UnsafeZone.
Record t : Type := mk {
    id : string;
    name : string;
    latitude : decimal;
    longitude : decimal;
    radius : option Z;
    reportCount : option Z;
    riskLevel : option string;
    createdAt : option Z;
    updatedAt : option Z
  }.
End UnsafeZone.

Module InsertUnsafeZone.
(** The value handed to [db.insert(unsafeZones).values(...)].  The
    TypeScript type makes both coordinates strings; at run time a caller
    can still pass [null], which is [None] here. *)
Record t : Type := mk {
    name : string;
    latitude : option decimal;
    longitude : option decimal;
    radius : option (option Z);
    reportCount : option (option Z);
    riskLevel : option (option string)
  }.
End InsertUnsafeZone.

Module Report.
Record t : Type := mk {
    id : string;
    userId : option string;
    location : string;
    latitude : option decimal;
    longitude : option decimal;
    incidentType : string;
    description : option string;
    datetime : Z;
    anonymous : option bool;
    status : option string;
    createdAt : option Z
  }.
End Report.

(** The argument of [createOrUpdateZone]. *)
Module ZoneCandidate.
Record t : Type := mk {
    name : string;
    latitude : option decimal;
    longitude : option decimal;
    radius : option Z
  }.
End ZoneCandidate.

(** The three texts [updateZoneReportCount] writes to [risk_level]. *)
Inductive RiskLevel : Type := low | medium | high.

Definition riskLevelText (r : RiskLevel) : string :=
  match r with
  | low => "low"
  | medium => "medium"
  | high => "high"
  end.

(** The tier order low < medium < high. *)
Definition tierRank (r : RiskLevel) : nat :=
  match r with
  | low => 0
  | medium => 1
  | high => 2
  end.

Definition tierLe (a b : RiskLevel) : Prop := (tierRank a <= tierRank b)%nat.

(** ** The world: database, clock and id generator *)

Record World : Type := mkWorld {
  unsafeZones : list UnsafeZone.t;
  reports : list Report.t;
  clockReads : nat;
  uuidDraws : nat
  }.

Inductive Error : Type :=
  | NotNullViolation (column : string)
  | ZodError (path : string).

Inductive Outcome (A : Type) : Type :=
  | Resolved (a : A) (w : World)
  | Rejected (e : Error) (w : World).
Arguments Resolved {A} a w.
Arguments Rejected {A} e w.

(** An [async] computation: it runs against the world and either resolves
    or rejects; writes made before a rejection stay (no transaction). *)
Definition Promise (A : Type) : Type := World -> Outcome A.

Definition resolve {A : Type} (a : A) : Promise A := fun w => Resolved a w.

Definition reject {A : Type} (e : Error) : Promise A := fun w => Rejected e w.

Definition await {A B : Type} (p : Promise A) (k : A -> Promise B) : Promise B :=
  fun w =>
    match p w with
    | Resolved a w' => k a w'
    | Rejected e w' => Rejected e w'
    end.

Notation "x <- p ;; k" := (await p (fun x => k))
  (at level 61, p at next level, right associativity).

Definition worldOf {A : Type} (o : Outcome A) : World :=
  match o with
  | Resolved _ w => w
  | Rejected _ w => w
  end.

(** ** The risk classifier (the head of [updateZoneReportCount]) *)

Definition classify (count : Z) : RiskLevel :=
  let riskLevel := low in
  if count >=? 15 then high
  else if count >=? 6 then medium
  else if count >=? 4 then low
  else riskLevel.

(** ** Pure row operations *)

(** The [.set({ reportCount, riskLevel, updatedAt })] of
    [updateZoneReportCount], on one row. *)
Definition setDerived (count : Z) (riskLevel : string) (at_ : Z)
    (z : UnsafeZone.t) : UnsafeZone.t :=
  UnsafeZone.mk (UnsafeZone.id z) (UnsafeZone.name z)
    (UnsafeZone.latitude z) (UnsafeZone.longitude z) (UnsafeZone.radius z)
    (Some count) (Some riskLevel)
    (UnsafeZone.createdAt z) (Some at_).

(** [UPDATE unsafe_zones SET ... WHERE id = zoneId], over the whole table. *)
Definition updateWhereId (zoneId : string) (f : UnsafeZone.t -> UnsafeZone.t)
    (rows : list UnsafeZone.t) : list UnsafeZone.t :=
  map (fun z => if String.eqb (UnsafeZone.id z) zoneId then f z else z) rows.

Definition setStatus (status : string) (r : Report.t) : Report.t :=
  Report.mk (Report.id r) (Report.userId r) (Report.location r)
    (Report.latitude r) (Report.longitude r) (Report.incidentType r)
    (Report.description r) (Report.datetime r) (Report.anonymous r)
    (Some status) (Report.createdAt r).

Definition reportHasId (id : string) (r : Report.t) : bool :=
  String.eqb (Report.id r) id.

(** A column default: an omitted field takes the default, an explicit value
    (also [null]) is stored as given. *)
Definition withDefault {A : Type} (field : option (option A)) (d : A) : option A :=
  match field with
  | None => Some d
  | Some v => v
  end.

(** [ORDER BY created_at DESC]: PostgreSQL puts NULL first in a descending
    order; rows with equal keys keep their listing order. *)
Definition createdAtGeb (a b : UnsafeZone.t) : bool :=
  match UnsafeZone.createdAt a, UnsafeZone.createdAt b with
  | None, _ => true
  | Some _, None => false
  | Some x, Some y => y <=? x
  end.

Fixpoint insertDesc (z : UnsafeZone.t) (sorted : list UnsafeZone.t)
    : list UnsafeZone.t :=
  match sorted with
  | [] => [z]
  | y :: rest => if createdAtGeb z y then z :: sorted else y :: insertDesc z rest
  end.

Definition orderByCreatedAtDesc (rows : list UnsafeZone.t) : list UnsafeZone.t :=
  fold_right insertDesc [] rows.

(** The merge test of [createOrUpdateZone]:
    [latDiff < 0.005 && lngDiff < 0.005] on binary64 numbers. *)
Definition withinMergeThreshold (zone : UnsafeZone.t) (data : ZoneCandidate.t)
    : bool :=
  let latDiff :=
    Js.absDiff (Js.Number (UnsafeZone.latitude zone))
               (Js.NumberOrNull (ZoneCandidate.latitude data)) in
  let lngDiff :=
    Js.absDiff (Js.Number (UnsafeZone.longitude zone))
               (Js.NumberOrNull (ZoneCandidate.longitude data)) in
  PrimFloat.ltb latDiff 0.005%float && PrimFloat.ltb lngDiff 0.005%float.

(** [ABS(CAST(a AS DECIMAL) - CAST(b AS DECIMAL)) < 0.01] of the recompute
    query: exact, and NULL (so not true) when the report's column is NULL. *)
Definition sqlAbsDiffBelow (hundredMillionths : Z) (a : option decimal)
    (b : decimal) : bool :=
  match a with
  | Some x => Z.abs (x - b) <? hundredMillionths
  | None => false
  end.

(** The [WHERE] clause of the recompute query for one zone. *)
Definition approvedInZone (zone : UnsafeZone.t) (r : Report.t) : bool :=
  match Report.status r with
  | Some s => String.eqb s "approved"
  | None => false
  end
  && sqlAbsDiffBelow 1000000 (Report.latitude r) (UnsafeZone.latitude zone)
  && sqlAbsDiffBelow 1000000 (Report.longitude r) (UnsafeZone.longitude zone).

Definition countApproved (rs : list Report.t) (zone : UnsafeZone.t) : Z :=
  Z.of_nat (List.length (filter (approvedInZone zone) rs)).

Definition withUnsafeZones (w : World) (rows : list UnsafeZone.t) : World :=
  mkWorld rows (reports w) (clockReads w) (uuidDraws w).

Definition withReports (w : World) (rows : list Report.t) : World :=
  mkWorld (unsafeZones w) rows (clockReads w) (uuidDraws w).

(** ** Requests and responses of the routes *)

Inductive Response (A : Type) : Type :=
| Json (status : nat) (body : A)
| Message (status : nat) (message : string).
Arguments Json {A} status body.
Arguments Message {A} status message.

(** The body of [POST /api/zones] as [insertUnsafeZoneSchema] reads it:
    [id], [createdAt] and [updatedAt] are omitted from the schema, every
    other column of the table is accepted. *)
Record ZoneRequestBody : Type := mkZoneRequestBody {
  body_name : option string;
  body_latitude : option decimal;
  body_longitude : option decimal;
  body_radius : option (option Z);
  body_reportCount : option (option Z);
  body_riskLevel : option (option string)
}.


(** ** The ranges of the columns *)

(** A value an [integer] column holds: 32 bits, signed. *)
Definition int4 (n : Z) : Prop := -2147483648 <= n <= 2147483647.

(** A value a [decimal(precision, 8)] column holds, counted in units of
    10^-8: fewer than [precision] digits. *)
Definition fitsDecimal (precision : Z) (v : decimal) : Prop :=
  Z.abs v < 10 ^ precision.


(** ** The membership tests in the words of the specification *)

(** [|a - b| < threshold] on exact decimals, the threshold in units of
    10^-8 as well: 0.005 is 500000 and 0.01 is 1000000. *)
Definition decimalDiffBelow (threshold : Z) (a b : decimal) : bool :=
  Z.abs (a - b) <? threshold.

(** A zone whose latitude and longitude each differ from the candidate's
    by strictly less than 0.005. *)
Definition decimalMergeMatch (lat lng : decimal) (zone : UnsafeZone.t) : bool :=
  decimalDiffBelow 500000 (UnsafeZone.latitude zone) lat
  && decimalDiffBelow 500000 (UnsafeZone.longitude zone) lng.

(** An approved report whose latitude and longitude each differ from the
    zone's by strictly less than 0.01. *)
Definition approvedWithinHundredth (zone : UnsafeZone.t) (r : Report.t) : bool :=
  match Report.status r, Report.latitude r, Report.longitude r with
  | Some s, Some lat, Some lng =>
      String.eqb s "approved"
      && decimalDiffBelow 1000000 lat (UnsafeZone.latitude zone)
      && decimalDiffBelow 1000000 lng (UnsafeZone.longitude zone)
  | _, _, _ => false
  end.

Definition geometricCount (rs : list Report.t) (zone : UnsafeZone.t) : Z :=
  Z.of_nat (List.length (filter (approvedWithinHundredth zone) rs)).

(** ** Views of a zone row *)

(** The columns neither aggregation path is meant to write. *)
Definition zoneFrame (z : UnsafeZone.t)
    : string * string * decimal * decimal * option Z * option Z :=
  (UnsafeZone.id z, UnsafeZone.name z, UnsafeZone.latitude z,
   UnsafeZone.longitude z, UnsafeZone.radius z, UnsafeZone.createdAt z).

(** The derived columns of a row, with the row's id. *)
Definition zoneDerived (z : UnsafeZone.t) : string * option Z * option string :=
  (UnsafeZone.id z, UnsafeZone.reportCount z, UnsafeZone.riskLevel z).

Definition zoneIds (rows : list UnsafeZone.t) : list string :=
  map UnsafeZone.id rows.

(** The row [createOrUpdateZone] leaves in place of a matched [zone] when the
    clock reads [now]. *)
Definition incremented (now : Z) (zone : UnsafeZone.t) : UnsafeZone.t :=
  let newCount := Js.orElse (UnsafeZone.reportCount zone) 0 + 1 in
  setDerived newCount (riskLevelText (classify newCount)) now zone.

(** ** Replies of the routes that may send no body *)

Inductive Reply (A : Type) : Type :=
| ReplyJson (status : nat) (body : A)
| ReplyMessage (status : nat) (message : string)
| ReplyEmpty (status : nat).
Arguments ReplyJson {A} status body.
Arguments ReplyMessage {A} status message.
Arguments ReplyEmpty {A} status.

(** ** The colours the client gives a zone *)

(** A count as JavaScript's [>=] reads it: [null] compares as 0. *)
Definition countOrNull (reportCount : option Z) : Z :=
  match reportCount with
  | Some n => n
  | None => 0
  end.

(** The marker colour of [components/ui/map.tsx]. *)
Definition markerColor (reportCount : option Z) : string :=
  let color := "#22c55e" in
  if countOrNull reportCount >=? 15 then "#ef4444"
  else if countOrNull reportCount >=? 6 then "#f97316"
  else if countOrNull reportCount >=? 4 then "#eab308"
  else color.

(** The dot of the admin dashboard's zone list,
    on [(zone.reportCount || 0)]. *)
Definition adminDotClass (reportCount : option Z) : string :=
  if Js.orElse reportCount 0 >=? 15 then "bg-red-500"
  else if Js.orElse reportCount 0 >=? 6 then "bg-orange-500"
  else if Js.orElse reportCount 0 >=? 4 then "bg-yellow-500"
  else "bg-green-500".

(** [getRiskBgColor] of the zone information modal: a [switch] on the
    stored text with a [default]. *)
Definition getRiskBgColor (riskLevel : string) : string :=
  if String.eqb riskLevel "high" then "bg-red-500"
  else if String.eqb riskLevel "medium" then "bg-orange-500"
  else "bg-yellow-500".

(** ** The CSV export of the admin dashboard *)

Definition quoteChar : Ascii.ascii := Ascii.ascii_of_nat 34.
Definition commaChar : Ascii.ascii := Ascii.ascii_of_nat 44.
Definition newlineChar : Ascii.ascii := Ascii.ascii_of_nat 10.

(** The [replace] of [exportReportsToCSV], with its global pattern: every
    double quote of [String(field)] is doubled. *)
Fixpoint escapeQuotes (field : string) : string :=
  match field with
  | EmptyString => EmptyString
  | String c rest =>
      if Ascii.eqb c quoteChar
      then String quoteChar (String quoteChar (escapeQuotes rest))
      else String c (escapeQuotes rest)
  end.

(** The template literal that wraps the escaped field in double quotes. *)
Definition csvField (field : string) : string :=
  String quoteChar (escapeQuotes field ++ String quoteChar EmptyString).

(** [row.map(...).join(',')]. *)
Definition csvRow (row : list string) : string :=
  String.concat (String commaChar EmptyString) (map csvField row).

(** [[headers, ...csvRows].map(...).join('\n')], on the rows. *)
Definition csvContent (rows : list (list string)) : string :=
  String.concat (String newlineChar EmptyString) (map csvRow rows).

(** The [headers] of [exportReportsToCSV]. *)
Definition csvHeaders : list string :=
  ["Report ID"; "User Name"; "User Phone"; "Location"; "Incident Type";
   "Description"; "Date & Time"; "Status"; "Anonymous"; "Latitude";
   "Longitude"; "Created At"].

(** The file [exportReportsToCSV] builds from the rows it made of the
    reports, one row a report: with no report it returns early and builds
    no file. *)
Definition exportCsv (csvRows : list (list string)) : option string :=
  match csvRows with
  | [] => None
  | _ :: _ => Some (csvContent (csvHeaders :: csvRows))
  end.

(** A reader of files whose fields are all quoted, in the manner of
    RFC 4180: inside a field a doubled quote is a quote, a single quote
    ends the field, and a comma or a line feed must follow. *)
Inductive CsvReader : Type :=
| AtFieldStart (done : list (list string)) (row : list string)
| InField (done : list (list string)) (row : list string) (field : string)
| AfterQuote (done : list (list string)) (row : list string) (field : string).

Definition stepCsv (st : CsvReader) (c : Ascii.ascii) : option CsvReader :=
  match st with
  | AtFieldStart done row =>
      if Ascii.eqb c quoteChar then Some (InField done row EmptyString) else None
  | InField done row field =>
      if Ascii.eqb c quoteChar then Some (AfterQuote done row field)
      else Some (InField done row (field ++ String c EmptyString))
  | AfterQuote done row field =>
      if Ascii.eqb c quoteChar
      then Some (InField done row (field ++ String quoteChar EmptyString))
      else if Ascii.eqb c commaChar
      then Some (AtFieldStart done (row ++ [field])%list)
      else if Ascii.eqb c newlineChar
      then Some (AtFieldStart (done ++ [(row ++ [field])%list])%list [])
      else None
  end.

Fixpoint runCsv (st : CsvReader) (text : string) : option CsvReader :=
  match text with
  | EmptyString => Some st
  | String c rest =>
      match stepCsv st c with
      | Some st' => runCsv st' rest
      | None => None
      end
  end.

Definition readCsv (text : string) : option (list (list string)) :=
  match runCsv (AtFieldStart [] []) text with
  | Some (AfterQuote done row field) =>
      Some (done ++ [(row ++ [field])%list])%list
  | _ => None
  end.

(** ** Accounts and sessions *)

(** The [users] table. *)
Module User.
Record t : Type := mk {
  id : string;
  username : string;
  password : string;
  fullName : option string;
  phone : option string;
  emergencyContact : option string;
  role : string;
  createdAt : option Z
}.
End User.

(** The payload of a token: [{ id, username, role }]. *)
Record AuthUser : Type := mkAuthUser {
  auth_id : string;
  auth_username : string;
  auth_role : string
}.

(** The [user] object of the login and signup replies. *)
Record PublicUser : Type := mkPublicUser {
  public_id : string;
  public_username : string;
  public_fullName : option string;
  public_role : string
}.

(** The body of the profile replies. *)
Record Profile : Type := mkProfile {
  profile_id : string;
  profile_username : string;
  profile_fullName : option string;
  profile_phone : option string;
  profile_emergencyContact : option string;
  profile_role : string
}.

Record Session : Type := mkSession {
  token : string;
  user : PublicUser
}.

(** The account store: the [users] rows in listing order, and how often the
    id generator, the clock and the salt generator have been read. *)
Record Accounts : Type := mkAccounts {
  users : list User.t;
  idDraws : nat;
  timeReads : nat;
  saltDraws : nat
}.

(** The body of [POST /api/auth/signup] as [insertUserSchema] reads it:
    [username] and [password] are required, [role] may be given. *)
Record SignupBody : Type := mkSignupBody {
  signup_username : option string;
  signup_password : option string;
  signup_fullName : option (option string);
  signup_phone : option (option string);
  signup_emergencyContact : option (option string);
  signup_role : option string
}.

(** A text that JavaScript takes for true: present and not empty. *)
Definition truthyText (v : option string) : bool :=
  match v with
  | Some s => negb (String.eqb s EmptyString)
  | None => false
  end.

Definition userHasName (username : string) (u : User.t) : bool :=
  String.eqb (User.username u) username.

Definition userHasId (id : string) (u : User.t) : bool :=
  String.eqb (User.id u) id.

Definition usernames (us : list User.t) : list string := map User.username us.

(** An omitted or [null] nullable field. *)
Definition nullable {A : Type} (field : option (option A)) : option A :=
  match field with
  | Some v => v
  | None => None
  end.

(** [s.split(sep)] for a one-character separator. *)
Fixpoint splitOn (sep : Ascii.ascii) (s : string) : list string :=
  match s with
  | EmptyString => [EmptyString]
  | String c rest =>
      if Ascii.eqb c sep then EmptyString :: splitOn sep rest
      else
        match splitOn sep rest with
        | word :: words => String c word :: words
        | [] => [String c EmptyString]
        end
  end.

Definition spaceChar : Ascii.ascii := Ascii.ascii_of_nat 32.

(** A text without the space character. *)
Fixpoint spaceFree (s : string) : bool :=
  match s with
  | EmptyString => true
  | String c rest => negb (Ascii.eqb c spaceChar) && spaceFree rest
  end.

(** The [.set({ fullName, phone, emergencyContact })] of
    [updateUserProfile], on one row. *)
Definition setProfile (fullName phone emergencyContact : string) (u : User.t)
    : User.t :=
  User.mk (User.id u) (User.username u) (User.password u)
    (Some fullName) (Some phone) (Some emergencyContact)
    (User.role u) (User.createdAt u).

(** The columns of a user a profile update is not meant to write. *)
Definition userFrame (u : User.t) : string * string * string * string * option Z :=
  (User.id u, User.username u, User.password u, User.role u, User.createdAt u).

(** ** Sample data: the scenarios of §8 and the boundary cases *)

Module Sample.

Definition clock (n : nat) : Z := 1700000000000 + Z.of_nat n.

Definition uuid (n : nat) : string :=
  String (Ascii.ascii_of_nat (97 + n)) "-generated".

Definition zoneAt (id : string) (lat lng : decimal) (count : Z) : UnsafeZone.t :=
  UnsafeZone.mk id "theft Zone" lat lng (Some 100) (Some count)
    (Some (riskLevelText (classify count))) (Some 1600000000000)
    (Some 1600000000000).

Definition reportAt (id : string) (lat lng : option decimal) (status : string)
    : Report.t :=
  Report.mk id (Some "user-1") "Connaught Place" lat lng "theft" None
    1650000000000 (Some false) (Some status) (Some 1650000000001).

Definition candidateAt (lat lng : decimal) : ZoneCandidate.t :=
  ZoneCandidate.mk "theft Zone" (Some lat) (Some lng) (Some 100).

(** §8, recompute correctness: a zone at (28.6139, 77.2090) and approved
    reports at (28.6140, 77.2091), (28.6200, 77.2200), (28.6141, 77.2089);
    a pending report and one without coordinates are added. *)
Definition recomputeWorld : World :=
  mkWorld
    [zoneAt "z1" 2861390000 7720900000 0; zoneAt "z2" 2870000000 7730000000 7]
    [reportAt "r1" (Some 2861400000) (Some 7720910000) "approved";
     reportAt "r2" (Some 2862000000) (Some 7722000000) "approved";
     reportAt "r3" (Some 2861410000) (Some 7720890000) "approved";
     reportAt "r4" (Some 2861410000) (Some 7720890000) "pending";
     reportAt "r5" None None "approved"]
    0 0.

(** §8, merge on approval: a zone at (28.6140, 77.2091) holding 5 reports,
    and a pending report at (28.6139, 77.2090). *)
Definition mergeWorld : World :=
  mkWorld [zoneAt "z1" 2861400000 7720910000 5]
    [reportAt "r1" (Some 2861390000) (Some 7720900000) "pending";
     reportAt "r2" None None "pending"]
    0 0.

(** Two zones at latitudes 28.005 and 28.001 on the meridian 77, for a
    candidate at (28.000, 77.000): the first is exactly 0.005 away. *)
Definition boundaryWorld : World :=
  mkWorld [zoneAt "zA" 2800500000 7700000000 0;
           zoneAt "zB" 2800100000 7700000000 0] [] 0 0.

(** A zone 0.001 degrees off the origin on both axes. *)
Definition originWorld : World :=
  mkWorld [zoneAt "z0" 100000 100000 0] [] 0 0.

Definition noCoordinates : ZoneCandidate.t :=
  ZoneCandidate.mk "theft Zone" None None (Some 100).

(** A [POST /api/zones] body that names its own count. *)
Definition chosenCountBody : ZoneRequestBody :=
  mkZoneRequestBody (Some "Market") (Some 2861390000) (Some 7720900000)
    None (Some (Some 9999)) None.

End Sample.

(** ** Sample data for the other routes *)

Module Demo.

(** The zones of [Sample.recomputeWorld] with other stored counts, after 7
    readings of the clock. *)
Definition otherCountsWorld : World :=
  mkWorld
    [Sample.zoneAt "z1" 2861390000 7720900000 9999;
     Sample.zoneAt "z2" 2870000000 7730000000 3]
    (reports Sample.recomputeWorld) 7 0.

(** A zone at (28.6140, 77.2091) and a pending report at (28.7000, 77.3000). *)
Definition farWorld : World :=
  mkWorld [Sample.zoneAt "z1" 2861400000 7720910000 5]
    [Sample.reportAt "r7" (Some 2870000000) (Some 7730000000) "pending"]
    0 0.

(** A description with a quote, a comma and a line break. *)
Definition awkward : string :=
  "he said " ++ String quoteChar ("stop" ++ String quoteChar
    (", twice" ++ String newlineChar "then left")).

Definition exportedRows : list (list string) :=
  [["r1"; "Anonymous"; "N/A"; "Connaught Place"; "theft"; awkward;
    "1/2/2025, 10:00:00 AM"; "pending"; "Yes"; "28.61390000"; "77.20900000";
    "1/2/2025, 10:05:00 AM"];
   ["r2"; "Asha"; "N/A"; "Karol Bagh, Delhi"; "other"; "N/A"; "N/A";
    "approved"; "No"; "N/A"; "N/A"; "N/A"]].

Definition sign (payload : AuthUser) : string :=
  "jwt." ++ auth_id payload ++ "." ++ auth_role payload.

Definition verify (t : string) : option AuthUser :=
  if String.eqb t "jwt.a-generated.user"
  then Some (mkAuthUser "a-generated" "asha" "user")
  else if String.eqb t "jwt.admin.admin"
  then Some (mkAuthUser "admin" "prashant75" "admin")
  else None.

Definition hash (password : string) (salt : nat) : string :=
  "$2b$10$" ++ password.

Definition compare (password hashed : string) : bool :=
  String.eqb hashed ("$2b$10$" ++ password).

Definition meera : User.t :=
  User.mk "u-1" "meera" "$2b$10$pw" (Some "Meera") None None "user"
    (Some 1600000000000).

Definition accounts : Accounts := mkAccounts [meera] 0 0 0.

(** A signup that names the role admin. *)
Definition ashaBody : SignupBody :=
  mkSignupBody (Some "asha") (Some "s3cret") (Some (Some "Asha")) None None
    (Some "admin").

End Demo.

(** ** [DatabaseStorage] *)

Section Storage.

(** The [n]-th reading of the clock and the [n]-th generated id. *)
Variable wallClock : nat -> Z.
Variable gen_random_uuid : nat -> string.

(** [new Date()]. *)
Definition newDate : Promise Z :=
  fun w =>
    Resolved (wallClock (clockReads w))
      (mkWorld (unsafeZones w) (reports w) (S (clockReads w)) (uuidDraws w)).

(** [db.select().from(unsafeZones)]. *)
Definition selectUnsafeZones : Promise (list UnsafeZone.t) :=
  fun w => Resolved (unsafeZones w) w.

Definition getReport (id : string) : Promise (option Report.t) :=
  fun w => Resolved (find (reportHasId id) (reports w)) w.

(** [db.update(reports).set({ status }).where(eq(reports.id, id)).returning()],
    of which the first returned row is the result. *)
Definition updateReportStatus (id status : string) : Promise (option Report.t) :=
  fun w =>
    let rows :=
      map (fun r => if reportHasId id r then setStatus status r else r)
          (reports w) in
    Resolved (find (reportHasId id) rows) (withReports w rows).

(** [db.insert(unsafeZones).values(insertZone).returning()]: [id],
    [created_at] and [updated_at] take their defaults, the three nullable
    columns take theirs when the field is omitted, and the NOT NULL
    coordinates reject a [null]. *)
Definition createUnsafeZone (insertZone : InsertUnsafeZone.t)
    : Promise UnsafeZone.t :=
  fun w =>
    match InsertUnsafeZone.latitude insertZone,
          InsertUnsafeZone.longitude insertZone with
    | Some lat, Some lng =>
        let now := wallClock (clockReads w) in
        let zone :=
          UnsafeZone.mk (gen_random_uuid (uuidDraws w))
            (InsertUnsafeZone.name insertZone) lat lng
            (withDefault (InsertUnsafeZone.radius insertZone) 100)
            (withDefault (InsertUnsafeZone.reportCount insertZone) 0)
            (withDefault (InsertUnsafeZone.riskLevel insertZone) "low")
            (Some now) (Some now) in
        Resolved zone
          (mkWorld (unsafeZones w ++ [zone]) (reports w)
                   (S (clockReads w)) (S (uuidDraws w)))
    | None, _ => Rejected (NotNullViolation "latitude") w
    | Some _, None => Rejected (NotNullViolation "longitude") w
    end.

Definition getAllUnsafeZones : Promise (list UnsafeZone.t) :=
  fun w => Resolved (orderByCreatedAtDesc (unsafeZones w)) w.

Definition updateZoneReportCount (zoneId : string) (count : Z) : Promise unit :=
  let riskLevel := riskLevelText (classify count) in
  now <- newDate ;;
  fun w =>
    Resolved tt
      (withUnsafeZones w
         (updateWhereId zoneId (setDerived count riskLevel now) (unsafeZones w))).

(** The [for (const zone of existingZones)] loop of [createOrUpdateZone];
    [Some zone] is its early [return zone], [None] is falling out of it. *)
Fixpoint mergeIntoExisting (data : ZoneCandidate.t)
    (existingZones : list UnsafeZone.t) : Promise (option UnsafeZone.t) :=
  match existingZones with
  | [] => resolve None
  | zone :: rest =>
      if withinMergeThreshold zone data then
        let newCount := Js.orElse (UnsafeZone.reportCount zone) 0 + 1 in
        _ <- updateZoneReportCount (UnsafeZone.id zone) newCount ;;
        resolve (Some zone)
      else mergeIntoExisting data rest
  end.

Definition createOrUpdateZone (data : ZoneCandidate.t) : Promise UnsafeZone.t :=
  existingZones <- selectUnsafeZones ;;
  merged <- mergeIntoExisting data existingZones ;;
  match merged with
  | Some zone => resolve zone
  | None =>
      newZone <- createUnsafeZone
        (InsertUnsafeZone.mk (ZoneCandidate.name data)
           (ZoneCandidate.latitude data) (ZoneCandidate.longitude data)
           (Some (Some (Js.orElse (ZoneCandidate.radius data) 100)))
           (Some (Some 1)) (Some (Some "low"))) ;;
      resolve newZone
  end.

(** The recompute query for one zone: the SQL count of the matching
    reports. *)
Definition countReportsInZone (zone : UnsafeZone.t) : Promise Z :=
  fun w => Resolved (countApproved (reports w) zone) w.

(** The [for (const zone of zones)] loop of [getZonesWithReportCounts]. *)
Fixpoint recomputeEach (zones : list UnsafeZone.t) : Promise unit :=
  match zones with
  | [] => resolve tt
  | zone :: rest =>
      count <- countReportsInZone zone ;;
      _ <- updateZoneReportCount (UnsafeZone.id zone) count ;;
      recomputeEach rest
  end.

Definition getZonesWithReportCounts : Promise (list UnsafeZone.t) :=
  zones <- selectUnsafeZones ;;
  _ <- recomputeEach zones ;;
  getAllUnsafeZones.

(** ** The two route handlers, past their authentication middleware *)

(** [try { ... } catch (error) { res.status(500).json(...) }]. *)
Definition tryCatch {A : Type} (handler : Promise (Response A))
    (w : World) : Response A * World :=
  match handler w with
  | Resolved res w' => (res, w')
  | Rejected _ w' => (Message 500 "Internal server error", w')
  end.

(** [PATCH /api/reports/:id/approve]. *)
Definition approveReport (id : string) : World -> Response (option Report.t) * World :=
  tryCatch (
    report <- getReport id ;;
    match report with
    | None => resolve (Message 404 "Report not found")
    | Some report =>
        updatedReport <- updateReportStatus id "approved" ;;
        _ <- (if Js.truthy (Report.latitude report)
                 && Js.truthy (Report.longitude report)
              then
                _ <- createOrUpdateZone
                       (ZoneCandidate.mk
                          (Report.incidentType report ++ " Zone")
                          (Report.latitude report) (Report.longitude report)
                          (Some 100)) ;;
                resolve tt
              else resolve tt) ;;
        resolve (Json 200 updatedReport)
    end).

(** [insertUnsafeZoneSchema.parse(req.body)]: the three NOT NULL columns
    are required. *)
Definition parseInsertUnsafeZone (body : ZoneRequestBody)
    : Promise InsertUnsafeZone.t :=
  match body_name body, body_latitude body, body_longitude body with
  | Some name, Some lat, Some lng =>
      resolve (InsertUnsafeZone.mk name (Some lat) (Some lng)
                 (body_radius body) (body_reportCount body)
                 (body_riskLevel body))
  | None, _, _ => reject (ZodError "name")
  | _, None, _ => reject (ZodError "latitude")
  | _, _, None => reject (ZodError "longitude")
  end.

(** [POST /api/zones]. *)
Definition createZone (body : ZoneRequestBody) : World -> Response UnsafeZone.t * World :=
  tryCatch (
    zoneData <- parseInsertUnsafeZone body ;;
    zone <- createUnsafeZone zoneData ;;
    resolve (Json 201 zone)).

(** ** The other zone and report operations, and their routes *)

(** [db.delete(unsafeZones).where(eq(unsafeZones.id, id))]. *)
Definition deleteUnsafeZone (id : string) : Promise unit :=
  fun w =>
    Resolved tt
      (withUnsafeZones w
         (filter (fun z => negb (String.eqb (UnsafeZone.id z) id))
                 (unsafeZones w))).

(** [db.delete(reports).where(eq(reports.id, id))]. *)
Definition deleteReport (id : string) : Promise unit :=
  fun w =>
    Resolved tt
      (withReports w (filter (fun r => negb (reportHasId id r)) (reports w))).

(** [try { ... } catch], for the routes that may send no body. *)
Definition tryCatchReply {A : Type} (handler : Promise (Reply A))
    (w : World) : Reply A * World :=
  match handler w with
  | Resolved res w' => (res, w')
  | Rejected _ w' => (ReplyMessage 500 "Internal server error", w')
  end.

(** [GET /api/zones]. *)
Definition listZones : World -> Reply (list UnsafeZone.t) * World :=
  tryCatchReply (
    zones <- getZonesWithReportCounts ;;
    resolve (ReplyJson 200 zones)).

(** [DELETE /api/zones/:id]. *)
Definition deleteZone (id : string) : World -> Reply unit * World :=
  tryCatchReply (
    _ <- deleteUnsafeZone id ;;
    resolve (ReplyEmpty 204)).

(** [DELETE /api/reports/:id]. *)
Definition removeReport (id : string) : World -> Reply unit * World :=
  tryCatchReply (
    _ <- deleteReport id ;;
    resolve (ReplyEmpty 204)).

(** [PATCH /api/reports/:id/status], for a body whose [status] is a text. *)
Definition setReportStatus (id status : string) : World -> Reply unit * World :=
  tryCatchReply (
    _ <- updateReportStatus id status ;;
    resolve (ReplyEmpty 204)).

(** The candidate the approval route makes of a report. *)
Definition candidateOf (report : Report.t) : ZoneCandidate.t :=
  ZoneCandidate.mk (Report.incidentType report ++ " Zone")
    (Report.latitude report) (Report.longitude report) (Some 100).

(** ** Authentication, accounts and their routes *)

(** [jsonwebtoken] and [bcrypt], with the server's secret and cost: the
    payload a token verifies to, the token signed for a payload, the hash
    of a password under the [n]-th salt, and the comparison of a password
    with a hash. *)
Variable jwtVerify : string -> option AuthUser.
Variable jwtSign : AuthUser -> string.
Variable bcryptHash : string -> nat -> string.
Variable bcryptCompare : string -> string -> bool.

(** [authHeader && authHeader.split(' ')[1]]: [None] is [undefined]. *)
Definition tokenOf (authHeader : option string) : option string :=
  match authHeader with
  | None => None
  | Some header =>
      if String.eqb header EmptyString then Some header
      else nth_error (splitOn spaceChar header) 1
  end.

(** [authenticateToken]: the reply it sends, or the user it puts on the
    request before calling [next()]. *)
Definition authenticateToken (authHeader : option string)
    : (nat * string) + AuthUser :=
  let token := tokenOf authHeader in
  if negb (truthyText token) then inl (401%nat, "Access token required")
  else
    match token with
    | Some t =>
        match jwtVerify t with
        | None => inl (403%nat, "Invalid token")
        | Some user => inr user
        end
    | None => inl (401%nat, "Access token required")
    end.

(** [requireAdmin]: the reply it sends, if any. *)
Definition requireAdmin (user : AuthUser) : option (nat * string) :=
  if negb (String.eqb (auth_role user) "admin")
  then Some (403%nat, "Admin access required")
  else None.

(** A route registered as [(path, authenticateToken, requireAdmin, handler)];
    [deny] is [res.status(status).json({ message })]. *)
Definition adminOnly {R : Type} (deny : nat -> string -> R)
    (handler : World -> R * World) (authHeader : option string) (w : World)
    : R * World :=
  match authenticateToken authHeader with
  | inl (status, message) => (deny status message, w)
  | inr user =>
      match requireAdmin user with
      | Some (status, message) => (deny status message, w)
      | None => handler w
      end
  end.

Definition getUserByUsername (username : string) (a : Accounts) : option User.t :=
  find (userHasName username) (users a).

Definition getUserById (id : string) (a : Accounts) : option User.t :=
  find (userHasId id) (users a).

Definition publicUser (u : User.t) : PublicUser :=
  mkPublicUser (User.id u) (User.username u) (User.fullName u) (User.role u).

Definition sessionFor (u : User.t) : Session :=
  mkSession (jwtSign (mkAuthUser (User.id u) (User.username u) (User.role u)))
    (publicUser u).

(** [createUser]: the row gets a new id and the time of the insert;
    [username] is declared unique, and [None] is the insert the store
    refuses. *)
Definition createUser (username password : string)
    (fullName phone emergencyContact : option string) (role : string)
    (a : Accounts) : option (User.t * Accounts) :=
  if existsb (userHasName username) (users a) then None
  else
    let created :=
      User.mk (gen_random_uuid (idDraws a)) username password
        fullName phone emergencyContact role
        (Some (wallClock (timeReads a))) in
    Some (created,
          mkAccounts (users a ++ [created]) (S (idDraws a)) (S (timeReads a))
            (saltDraws a)).

(** [POST /api/auth/signup].  A body [insertUserSchema] refuses makes
    [parse] throw, which the handler's [catch] answers with 500; the user
    is created with the hashed password and with [role: 'user'] written
    over whatever the body gave. *)
Definition signup (body : SignupBody) (a : Accounts) : Reply Session * Accounts :=
  match signup_username body, signup_password body with
  | Some username, Some password =>
      match getUserByUsername username a with
      | Some _ => (ReplyMessage 400 "Username already exists", a)
      | None =>
          let hashedPassword := bcryptHash password (saltDraws a) in
          let salted :=
            mkAccounts (users a) (idDraws a) (timeReads a) (S (saltDraws a)) in
          match createUser username hashedPassword
                  (nullable (signup_fullName body))
                  (nullable (signup_phone body))
                  (nullable (signup_emergencyContact body)) "user" salted with
          | Some (created, a') => (ReplyJson 201 (sessionFor created), a')
          | None => (ReplyMessage 500 "Internal server error", salted)
          end
      end
  | _, _ => (ReplyMessage 500 "Internal server error", a)
  end.

(** [POST /api/auth/login]; it reads the store and never writes it. *)
Definition login (username password : option string) (a : Accounts)
    : Reply Session :=
  if negb (truthyText username) || negb (truthyText password)
  then ReplyMessage 400 "Username and password required"
  else
    match username, password with
    | Some username, Some password =>
        if String.eqb username "prashant75"
           && String.eqb password "prashant232323"
        then
          ReplyJson 200
            (mkSession (jwtSign (mkAuthUser "admin" "prashant75" "admin"))
               (mkPublicUser "admin" "prashant75" (Some "Admin") "admin"))
        else
          match getUserByUsername username a with
          | None => ReplyMessage 401 "Invalid credentials"
          | Some u =>
              if negb (bcryptCompare password (User.password u))
              then ReplyMessage 401 "Invalid credentials"
              else ReplyJson 200 (sessionFor u)
          end
    | _, _ => ReplyMessage 400 "Username and password required"
    end.

(** [updateUserProfile]: the rows with that id get the three fields; [None]
    is the [throw] when no row came back. *)
Definition updateUserProfile (id fullName phone emergencyContact : string)
    (a : Accounts) : option (User.t * Accounts) :=
  let rows :=
    map (fun u => if userHasId id u
                  then setProfile fullName phone emergencyContact u else u)
        (users a) in
  match find (userHasId id) rows with
  | Some u => Some (u, mkAccounts rows (idDraws a) (timeReads a) (saltDraws a))
  | None => None
  end.

Definition profileOf (u : User.t) : Profile :=
  mkProfile (User.id u) (User.username u) (User.fullName u) (User.phone u)
    (User.emergencyContact u) (User.role u).

(** [PUT /api/auth/profile], for the user [authenticateToken] put on the
    request. *)
Definition updateProfile (requester : AuthUser)
    (fullName phone emergencyContact : option string) (a : Accounts)
    : Reply Profile * Accounts :=
  if String.eqb (auth_id requester) "admin"
  then (ReplyMessage 400 "Admin profile cannot be updated", a)
  else if negb (truthyText fullName) || negb (truthyText phone)
          || negb (truthyText emergencyContact)
  then (ReplyMessage 400 "All fields are required", a)
  else
    match fullName, phone, emergencyContact with
    | Some fullName, Some phone, Some emergencyContact =>
        match getUserById (auth_id requester) a with
        | None => (ReplyMessage 404 "User not found", a)
        | Some _ =>
            match updateUserProfile (auth_id requester) fullName phone
                    emergencyContact a with
            | Some (updated, a') => (ReplyJson 200 (profileOf updated), a')
            | None => (ReplyMessage 500 "Internal server error", a)
            end
        end
    | _, _, _ => (ReplyMessage 400 "All fields are required", a)
    end.

(** ** Auxiliary definitions for the proofs *)

(** What the recompute loop over [zones] does to a single [row], the first
    update reading the clock for the [n]-th time. *)
Fixpoint recountRow (rs : list Report.t) (n : nat) (zones : list UnsafeZone.t)
    (row : UnsafeZone.t) : UnsafeZone.t :=
  match zones with
  | [] => row
  | zone :: rest =>
      recountRow rs (S n) rest
        (if String.eqb (UnsafeZone.id row) (UnsafeZone.id zone)
         then
           let count := countApproved rs zone in
           setDerived count (riskLevelText (classify count)) (wallClock n) row
         else row)
  end.

(** The row inserted when nothing matched. *)
Definition seededZone (data : ZoneCandidate.t) (lat lng : decimal) (w : World)
    : UnsafeZone.t :=
  let now := wallClock (clockReads w) in
  UnsafeZone.mk (gen_random_uuid (uuidDraws w)) (ZoneCandidate.name data)
    lat lng (Some (Js.orElse (ZoneCandidate.radius data) 100))
    (Some 1) (Some "low") (Some now) (Some now).

(** The report table after the status update of the approval route. *)
Definition approveRows (id : string) (rows : list Report.t) : list Report.t :=
  map (fun r => if reportHasId id r then setStatus "approved" r else r) rows.

(** ** The specification's sentences where the code departs from them *)


(** §4.2 step 4 read on exact decimals: when no zone has both coordinates
    strictly less than 0.005 away from the candidate's, one zone is
    inserted and the existing ones stay. *)
Definition createsWhenNoDecimalMatch (w : World) (data : ZoneCandidate.t)
    : Prop :=
  forall lat lng,
    ZoneCandidate.latitude data = Some lat ->
    ZoneCandidate.longitude data = Some lng ->
    (forall z, In z (unsafeZones w) -> decimalMergeMatch lat lng z = false) ->
    exists newZone w',
      createOrUpdateZone data w = Resolved newZone w' /\
      unsafeZones w' = (unsafeZones w ++ [newZone])%list.



(** ** The classifier *)

Lemma classify_high (count : Z) : 15 <= count -> classify count = high.
Proof.
  intros H. unfold classify.
  destruct (Z.geb_spec count 15); [reflexivity | lia].
Qed.

Lemma classify_medium (count : Z) : 6 <= count < 15 -> classify count = medium.
Proof.
  intros H. unfold classify.
  destruct (Z.geb_spec count 15); [lia |].
  destruct (Z.geb_spec count 6); [reflexivity | lia].
Qed.

Lemma classify_low (count : Z) : count < 6 -> classify count = low.
Proof.
  intros H. unfold classify.
  destruct (Z.geb_spec count 15); [lia |].
  destruct (Z.geb_spec count 6); [lia |].
  destruct (count >=? 4); reflexivity.
Qed.

Lemma classify_monotone (a b : Z) : a <= b -> tierLe (classify a) (classify b).
Proof.
  intros H. unfold tierLe.
  destruct (Z_lt_le_dec b 6) as [Hb | Hb].
  - rewrite (classify_low a), (classify_low b) by lia. apply le_n.
  - destruct (Z_lt_le_dec b 15) as [Hb' | Hb'].
    + rewrite (classify_medium b) by lia.
      destruct (Z_lt_le_dec a 6).
      * rewrite classify_low by lia. cbn. auto.
      * rewrite classify_medium by lia. apply le_n.
    + rewrite (classify_high b) by lia.
      destruct (classify a); cbn; auto.
Qed.

(** C7. The classifier is total on the integers, the text it has stored is
    one of low, medium and high, it is [high] from 15 on, [medium] from 6
    to 14 and [low] below 6; it is [low] at 0 and 5, [medium] at 6 and 14,
    [high] at 15; and on non-negative counts it is monotone for the tier
    order low < medium < high. *)
Theorem classify_spec :
  (forall count, In (riskLevelText (classify count)) ["low"; "medium"; "high"]) /\
  (forall count, 15 <= count -> classify count = high) /\
  (forall count, 6 <= count < 15 -> classify count = medium) /\
  (forall count, count < 6 -> classify count = low) /\
  classify 0 = low /\ classify 5 = low /\ classify 6 = medium /\
  classify 14 = medium /\ classify 15 = high /\
  (forall a b, 0 <= a -> a <= b -> tierLe (classify a) (classify b)).
Proof.
  repeat split; try reflexivity.
  - intros count. destruct (classify count); cbn; auto.
  - exact classify_high.
  - exact classify_medium.
  - exact classify_low.
  - intros a b _ Hab. now apply classify_monotone.
Qed.

(** ** Rows, ids and the listing order *)

Lemma same_id_same_row (rows : list UnsafeZone.t) (a b : UnsafeZone.t) :
  NoDup (zoneIds rows) -> In a rows -> In b rows ->
  UnsafeZone.id a = UnsafeZone.id b -> a = b.
Proof.
  unfold zoneIds. induction rows as [| r rows IH]; intros Hnd Ha Hb Hid.
  - destruct Ha.
  - cbn in Hnd. inversion Hnd as [| x xs Hnotin Hnd']; subst.
    destruct Ha as [-> | Ha], Hb as [-> | Hb].
    + reflexivity.
    + exfalso. apply Hnotin. rewrite Hid. now apply in_map.
    + exfalso. apply Hnotin. rewrite <- Hid. now apply in_map.
    + now apply IH.
Qed.

Lemma insertDesc_perm (z : UnsafeZone.t) (rows : list UnsafeZone.t) :
  Permutation (insertDesc z rows) (z :: rows).
Proof.
  induction rows as [| y rows IH]; cbn.
  - apply Permutation_refl.
  - destruct (createdAtGeb z y).
    + apply Permutation_refl.
    + eapply perm_trans; [apply perm_skip, IH | apply perm_swap].
Qed.

Lemma orderByCreatedAtDesc_perm (rows : list UnsafeZone.t) :
  Permutation (orderByCreatedAtDesc rows) rows.
Proof.
  unfold orderByCreatedAtDesc. induction rows as [| z rows IH]; cbn.
  - apply perm_nil.
  - eapply perm_trans; [apply insertDesc_perm | now apply perm_skip].
Qed.

(** Sorting commutes with a row change that keeps [created_at]. *)
Lemma insertDesc_map (f : UnsafeZone.t -> UnsafeZone.t) z rows :
  (forall x, UnsafeZone.createdAt (f x) = UnsafeZone.createdAt x) ->
  insertDesc (f z) (map f rows) = map f (insertDesc z rows).
Proof.
  intros Hf. induction rows as [| y rows IH]; cbn.
  - reflexivity.
  - unfold createdAtGeb. rewrite !Hf.
    fold (createdAtGeb z y). destruct (createdAtGeb z y); cbn.
    + reflexivity.
    + now rewrite IH.
Qed.

Lemma orderByCreatedAtDesc_map (f : UnsafeZone.t -> UnsafeZone.t) rows :
  (forall x, UnsafeZone.createdAt (f x) = UnsafeZone.createdAt x) ->
  orderByCreatedAtDesc (map f rows) = map f (orderByCreatedAtDesc rows).
Proof.
  intros Hf. unfold orderByCreatedAtDesc.
  induction rows as [| z rows IH]; cbn.
  - reflexivity.
  - rewrite IH. now apply insertDesc_map.
Qed.

(** ** The recompute loop, row by row *)

Lemma approvedInZone_decimal (zone : UnsafeZone.t) (r : Report.t) :
  approvedInZone zone r = approvedWithinHundredth zone r.
Proof.
  unfold approvedInZone, approvedWithinHundredth, sqlAbsDiffBelow,
    decimalDiffBelow.
  destruct (Report.status r), (Report.latitude r), (Report.longitude r);
    cbn; rewrite ?andb_false_r; reflexivity.
Qed.

Lemma countApproved_geometric (rs : list Report.t) (zone : UnsafeZone.t) :
  countApproved rs zone = geometricCount rs zone.
Proof.
  unfold countApproved, geometricCount. f_equal. f_equal.
  apply filter_ext. intros r. apply approvedInZone_decimal.
Qed.

Lemma geometricCount_frame (rs : list Report.t) (a b : UnsafeZone.t) :
  zoneFrame a = zoneFrame b -> geometricCount rs a = geometricCount rs b.
Proof.
  unfold zoneFrame. intros H. injection H as _ _ Hlat Hlng _ _.
  unfold geometricCount. f_equal. f_equal. apply filter_ext. intros r.
  unfold approvedWithinHundredth. now rewrite Hlat, Hlng.
Qed.

Lemma recountRow_frame rs zones : forall n row,
  zoneFrame (recountRow rs n zones row) = zoneFrame row.
Proof.
  induction zones as [| zone rest IH]; intros n row; cbn.
  - reflexivity.
  - rewrite IH. now destruct (String.eqb _ _).
Qed.

Lemma recountRow_untouched rs zones : forall n row,
  ~ In (UnsafeZone.id row) (zoneIds zones) -> recountRow rs n zones row = row.
Proof.
  induction zones as [| zone rest IH]; intros n row Hnot; cbn.
  - reflexivity.
  - destruct (String.eqb_spec (UnsafeZone.id row) (UnsafeZone.id zone)) as [E | E].
    + exfalso. apply Hnot. left. now symmetry.
    + apply IH. intros Hin. apply Hnot. now right.
Qed.

(** A row that already carries the count every later write would give it
    keeps that count. *)
Lemma recountRow_keeps rs count zones : forall n row,
  (forall z, In z zones -> UnsafeZone.id z = UnsafeZone.id row ->
             countApproved rs z = count) ->
  UnsafeZone.reportCount row = Some count ->
  UnsafeZone.riskLevel row = Some (riskLevelText (classify count)) ->
  UnsafeZone.reportCount (recountRow rs n zones row) = Some count /\
  UnsafeZone.riskLevel (recountRow rs n zones row)
    = Some (riskLevelText (classify count)).
Proof.
  induction zones as [| zone rest IH]; intros n row Hall Hc Hr; cbn.
  - now split.
  - destruct (String.eqb_spec (UnsafeZone.id row) (UnsafeZone.id zone)) as [E | E].
    + rewrite (Hall zone (or_introl eq_refl) (eq_sym E)).
      apply IH; cbn; auto.
      intros z Hz Hid. apply Hall; [now right | exact Hid].
    + apply IH; auto. intros z Hz Hid. apply Hall; [now right | exact Hid].
Qed.

(** A row some zone of the loop shares its id with ends with the count the
    loop computes for that id. *)
Lemma recountRow_derived rs count zones : forall n row,
  In (UnsafeZone.id row) (zoneIds zones) ->
  (forall z, In z zones -> UnsafeZone.id z = UnsafeZone.id row ->
             countApproved rs z = count) ->
  UnsafeZone.reportCount (recountRow rs n zones row) = Some count /\
  UnsafeZone.riskLevel (recountRow rs n zones row)
    = Some (riskLevelText (classify count)).
Proof.
  induction zones as [| zone rest IH]; intros n row Hin Hall; cbn.
  - destruct Hin.
  - destruct (String.eqb_spec (UnsafeZone.id row) (UnsafeZone.id zone)) as [E | E].
    + rewrite (Hall zone (or_introl eq_refl) (eq_sym E)).
      apply recountRow_keeps; cbn; auto.
      intros z Hz Hid. apply Hall; [now right | exact Hid].
    + apply IH.
      * destruct Hin as [Hin | Hin]; [congruence | exact Hin].
      * intros z Hz Hid. apply Hall; [now right | exact Hid].
Qed.

Lemma updateZoneReportCount_run (zoneId : string) (count : Z) (w : World) :
  updateZoneReportCount zoneId count w =
  Resolved tt
    (mkWorld
       (updateWhereId zoneId
          (setDerived count (riskLevelText (classify count))
             (wallClock (clockReads w)))
          (unsafeZones w))
       (reports w) (S (clockReads w)) (uuidDraws w)).
Proof. reflexivity. Qed.

(** The whole loop is one pass of [recountRow] over the table. *)
Lemma recomputeEach_run (zones : list UnsafeZone.t) : forall w,
  recomputeEach zones w =
  Resolved tt
    (mkWorld
       (map (recountRow (reports w) (clockReads w) zones) (unsafeZones w))
       (reports w) (clockReads w + List.length zones) (uuidDraws w)).
Proof.
  induction zones as [| zone rest IH]; intros w.
  - cbn. rewrite map_id, Nat.add_0_r. now destruct w.
  - cbn [recomputeEach]. unfold await at 1, countReportsInZone.
    unfold await at 1. rewrite updateZoneReportCount_run.
    rewrite IH. cbn [unsafeZones reports clockReads uuidDraws].
    unfold updateWhereId. rewrite map_map.
    replace (clockReads w + List.length (zone :: rest))%nat
      with (S (clockReads w) + List.length rest)%nat by (cbn; lia).
    reflexivity.
Qed.

Lemma getZonesWithReportCounts_run (w : World) :
  getZonesWithReportCounts w =
  let rows :=
    map (recountRow (reports w) (clockReads w) (unsafeZones w)) (unsafeZones w) in
  Resolved (orderByCreatedAtDesc rows)
    (mkWorld rows (reports w)
       (clockReads w + List.length (unsafeZones w)) (uuidDraws w)).
Proof.
  unfold getZonesWithReportCounts, await, selectUnsafeZones.
  rewrite recomputeEach_run. reflexivity.
Qed.

(** One pass over a table with distinct ids leaves each row with the count
    of the approved reports around that very row. *)
Lemma recount_pass_derived rs n rows row :
  NoDup (zoneIds rows) -> In row rows ->
  UnsafeZone.reportCount (recountRow rs n rows row)
    = Some (geometricCount rs row) /\
  UnsafeZone.riskLevel (recountRow rs n rows row)
    = Some (riskLevelText (classify (geometricCount rs row))).
Proof.
  intros Hnd Hrow. rewrite <- countApproved_geometric.
  apply recountRow_derived.
  - now apply in_map.
  - intros z Hz Hid. now rewrite (same_id_same_row _ z row Hnd Hz Hrow Hid).
Qed.

Lemma recount_pass_ids rs n zones rows :
  zoneIds (map (recountRow rs n zones) rows) = zoneIds rows.
Proof.
  unfold zoneIds. rewrite map_map. apply map_ext. intros row.
  pose proof (recountRow_frame rs zones n row) as H.
  unfold zoneFrame in H. now injection H.
Qed.

(** C1. After [getZonesWithReportCounts] the reports are as before, the
    store holds the same zones, and every stored zone carries as
    [reportCount] the number of approved reports whose latitude and
    longitude are each strictly less than 0.01 away from the zone's, and as
    [riskLevel] the tier of that count; the returned list is the store's
    rows, reordered. *)
Theorem getZonesWithReportCounts_recounts (w : World) :
  NoDup (zoneIds (unsafeZones w)) ->
  exists zones w',
    getZonesWithReportCounts w = Resolved zones w' /\
    reports w' = reports w /\
    map zoneFrame (unsafeZones w') = map zoneFrame (unsafeZones w) /\
    (forall z, In z (unsafeZones w') ->
       UnsafeZone.reportCount z = Some (geometricCount (reports w') z) /\
       UnsafeZone.riskLevel z
         = Some (riskLevelText (classify (geometricCount (reports w') z)))) /\
    Permutation zones (unsafeZones w').
Proof.
  intros Hnd. rewrite getZonesWithReportCounts_run. cbv zeta.
  eexists _, _. split; [reflexivity |].
  cbn [unsafeZones reports]. split; [reflexivity |]. split; [| split].
  - rewrite map_map. apply map_ext. intros row. apply recountRow_frame.
  - intros z Hz. apply in_map_iff in Hz as (row & <- & Hrow).
    rewrite (geometricCount_frame _ _ row) by apply recountRow_frame.
    now apply recount_pass_derived.
  - apply orderByCreatedAtDesc_perm.
Qed.

(** C8. Two recomputes in a row, the reports untouched in between (the
    clock and the id generator may have been read any number of times),
    return lists with the same [reportCount] and [riskLevel] zone by zone,
    and the second leaves in the store what the first wrote there. *)
Theorem getZonesWithReportCounts_idempotent (w : World) (reads draws : nat) :
  NoDup (zoneIds (unsafeZones w)) ->
  exists zones1 w1 zones2 w2,
    getZonesWithReportCounts w = Resolved zones1 w1 /\
    getZonesWithReportCounts (mkWorld (unsafeZones w1) (reports w1) reads draws)
      = Resolved zones2 w2 /\
    map zoneDerived zones2 = map zoneDerived zones1 /\
    map zoneDerived (unsafeZones w2) = map zoneDerived (unsafeZones w1).
Proof.
  intros Hnd. rewrite getZonesWithReportCounts_run. cbv zeta.
  eexists _, _, _, _. split; [reflexivity |].
  rewrite getZonesWithReportCounts_run. cbv zeta.
  cbn [unsafeZones reports clockReads].
  split; [reflexivity |].
  set (rs := reports w).
  set (rows1 := map (recountRow rs (clockReads w) (unsafeZones w)) (unsafeZones w)).
  assert (Hnd1 : NoDup (zoneIds rows1)).
  { unfold rows1. now rewrite recount_pass_ids. }
  assert (Hfix : forall row, In row rows1 ->
            zoneDerived (recountRow rs reads rows1 row) = zoneDerived row).
  { intros row Hrow.
    destruct (recount_pass_derived rs reads rows1 row Hnd1 Hrow) as [Hc Hr].
    unfold zoneDerived. rewrite Hc, Hr.
    pose proof (recountRow_frame rs rows1 reads row) as Hf.
    unfold zoneFrame in Hf. injection Hf as Hid _ _ _ _ _. rewrite Hid.
    unfold rows1 in Hrow. apply in_map_iff in Hrow as (row0 & <- & Hrow0).
    destruct (recount_pass_derived rs (clockReads w) _ row0 Hnd Hrow0)
      as [Hc0 Hr0].
    rewrite Hc0, Hr0.
    now rewrite (geometricCount_frame rs _ row0) by apply recountRow_frame. }
  split.
  - rewrite orderByCreatedAtDesc_map.
    + rewrite map_map. apply map_ext_in. intros row Hrow. apply Hfix.
      eapply Permutation_in; [apply orderByCreatedAtDesc_perm | exact Hrow].
    + intros row. pose proof (recountRow_frame rs rows1 reads row) as Hf.
      unfold zoneFrame in Hf. now injection Hf.
  - cbn [unsafeZones]. rewrite map_map. apply map_ext_in. exact Hfix.
Qed.

(** ** The merge path *)

Lemma find_split {A : Type} (p : A -> bool) (l : list A) (x : A) :
  find p l = Some x ->
  exists pre post,
    l = (pre ++ x :: post)%list /\
    (forall y, In y pre -> p y = false) /\ p x = true.
Proof.
  induction l as [| a l IH]; cbn; intros H.
  - discriminate.
  - destruct (p a) eqn:Ha.
    + injection H as ->. exists [], l. repeat split; auto. intros y [].
    + destruct (IH H) as (pre & post & -> & Hpre & Hx).
      exists (a :: pre), post. repeat split; auto.
      intros y [<- | Hy]; auto.
Qed.

Lemma find_none_iff {A : Type} (p : A -> bool) (l : list A) :
  find p l = None <-> (forall y, In y l -> p y = false).
Proof.
  split.
  - apply find_none.
  - induction l as [| a l IH]; cbn; intros H; [reflexivity |].
    rewrite (H a (or_introl eq_refl)). apply IH. intros y Hy. apply H. now right.
Qed.

Lemma updateWhereId_other (zoneId : string) f rows :
  ~ In zoneId (zoneIds rows) -> updateWhereId zoneId f rows = rows.
Proof.
  unfold updateWhereId, zoneIds. induction rows as [| r rows IH]; cbn; intros H.
  - reflexivity.
  - destruct (String.eqb_spec (UnsafeZone.id r) zoneId) as [E | E].
    + exfalso. apply H. now left.
    + f_equal. apply IH. intros Hin. apply H. now right.
Qed.

(** With distinct ids the update rewrites the one row it names. *)
Lemma updateWhereId_unique f pre zone post :
  NoDup (zoneIds (pre ++ zone :: post)%list) ->
  updateWhereId (UnsafeZone.id zone) f (pre ++ zone :: post)%list
    = (pre ++ f zone :: post)%list.
Proof.
  intros Hnd. unfold zoneIds in Hnd. rewrite map_app in Hnd. cbn in Hnd.
  pose proof (NoDup_remove_2 _ _ _ Hnd) as Hnot.
  unfold updateWhereId at 1. rewrite map_app. cbn [map].
  rewrite String.eqb_refl.
  fold (updateWhereId (UnsafeZone.id zone) f pre).
  fold (updateWhereId (UnsafeZone.id zone) f post).
  rewrite !updateWhereId_other; [reflexivity | |];
    intros Hin; apply Hnot, in_or_app; [now right | now left].
Qed.

Lemma updateWhereId_frame (zoneId : string) count risk now rows :
  map zoneFrame (updateWhereId zoneId (setDerived count risk now) rows)
    = map zoneFrame rows.
Proof.
  unfold updateWhereId. rewrite map_map. apply map_ext. intros z.
  now destruct (String.eqb _ _).
Qed.

(** The loop stops at the first zone that passes the merge test and
    rewrites the rows that carry its id. *)
Lemma mergeIntoExisting_run (data : ZoneCandidate.t) zones : forall w,
  mergeIntoExisting data zones w =
  match find (fun zone => withinMergeThreshold zone data) zones with
  | Some zone =>
      let newCount := Js.orElse (UnsafeZone.reportCount zone) 0 + 1 in
      Resolved (Some zone)
        (mkWorld
           (updateWhereId (UnsafeZone.id zone)
              (setDerived newCount (riskLevelText (classify newCount))
                 (wallClock (clockReads w)))
              (unsafeZones w))
           (reports w) (S (clockReads w)) (uuidDraws w))
  | None => Resolved None w
  end.
Proof.
  induction zones as [| zone rest IH]; intros w; cbn [mergeIntoExisting find].
  - reflexivity.
  - destruct (withinMergeThreshold zone data).
    + reflexivity.
    + apply IH.
Qed.

Lemma createOrUpdateZone_run (data : ZoneCandidate.t) (w : World) :
  createOrUpdateZone data w =
  match find (fun zone => withinMergeThreshold zone data) (unsafeZones w) with
  | Some zone =>
      let newCount := Js.orElse (UnsafeZone.reportCount zone) 0 + 1 in
      Resolved zone
        (mkWorld
           (updateWhereId (UnsafeZone.id zone)
              (setDerived newCount (riskLevelText (classify newCount))
                 (wallClock (clockReads w)))
              (unsafeZones w))
           (reports w) (S (clockReads w)) (uuidDraws w))
  | None =>
      match ZoneCandidate.latitude data, ZoneCandidate.longitude data with
      | Some lat, Some lng =>
          Resolved (seededZone data lat lng w)
            (mkWorld (unsafeZones w ++ [seededZone data lat lng w]) (reports w)
               (S (clockReads w)) (S (uuidDraws w)))
      | None, _ => Rejected (NotNullViolation "latitude") w
      | Some _, None => Rejected (NotNullViolation "longitude") w
      end
  end.
Proof.
  unfold createOrUpdateZone, await, selectUnsafeZones.
  rewrite mergeIntoExisting_run.
  destruct (find _ (unsafeZones w)) as [zone |]; [reflexivity |].
  unfold createUnsafeZone. cbn.
  destruct (ZoneCandidate.latitude data), (ZoneCandidate.longitude data);
    reflexivity.
Qed.

Lemma orElse_zero (n : Z) : Js.orElse (Some n) 0 = n.
Proof.
  unfold Js.orElse. destruct (Z.eqb_spec n 0); congruence.
Qed.


(** C3, for the comparison the code makes.  When no zone passes the merge
    test against a candidate whose coordinates fit the [decimal(10, 8)] and
    [decimal(11, 8)] columns and which gives no radius (or gives 100, as
    the approval route does), [createOrUpdateZone] appends one zone with
    the candidate's name and coordinates, [reportCount] 1, [riskLevel] low
    and the default radius of 100, and leaves every existing row as it
    was. *)
Theorem createOrUpdateZone_creates_when_no_match
    (data : ZoneCandidate.t) (lat lng : decimal) (w : World) :
  ZoneCandidate.latitude data = Some lat ->
  ZoneCandidate.longitude data = Some lng ->
  fitsDecimal 10 lat ->
  fitsDecimal 11 lng ->
  ZoneCandidate.radius data = None \/ ZoneCandidate.radius data = Some 100 ->
  (forall z, In z (unsafeZones w) -> withinMergeThreshold z data = false) ->
  exists newZone w',
    createOrUpdateZone data w = Resolved newZone w' /\
    unsafeZones w' = (unsafeZones w ++ [newZone])%list /\
    reports w' = reports w /\
    UnsafeZone.name newZone = ZoneCandidate.name data /\
    UnsafeZone.latitude newZone = lat /\
    UnsafeZone.longitude newZone = lng /\
    UnsafeZone.reportCount newZone = Some 1 /\
    UnsafeZone.riskLevel newZone = Some (riskLevelText low) /\
    UnsafeZone.radius newZone = Some 100.
Proof.
  intros Hlat Hlng _ _ Hradius Hnone.
  exists (seededZone data lat lng w). eexists.
  rewrite createOrUpdateZone_run.
  rewrite (proj2 (find_none_iff _ _) Hnone), Hlat, Hlng.
  split; [reflexivity |]. cbn [unsafeZones reports].
  repeat (split; [reflexivity |]).
  destruct Hradius as [H | H]; cbn; rewrite H; reflexivity.
Qed.

(** On a merge the record handed back is the row as it was read before the
    update, not the row the update wrote. *)
Lemma createOrUpdateZone_returns_row_read (data : ZoneCandidate.t) (w : World) zone :
  find (fun z => withinMergeThreshold z data) (unsafeZones w) = Some zone ->
  exists w', createOrUpdateZone data w = Resolved zone w'.
Proof.
  intros Hfind. rewrite createOrUpdateZone_run, Hfind. eexists. reflexivity.
Qed.


(** Whatever the candidate, the merge path keeps the rows it found, in
    place, up to their derived columns, and appends at most one row. *)
Lemma createOrUpdateZone_keeps_rows (data : ZoneCandidate.t) (w : World) :
  exists kept added,
    unsafeZones (worldOf (createOrUpdateZone data w)) = (kept ++ added)%list /\
    map zoneFrame kept = map zoneFrame (unsafeZones w) /\
    (List.length added <= 1)%nat /\
    (ZoneCandidate.latitude data = None \/ ZoneCandidate.longitude data = None ->
     added = []).
Proof.
  rewrite createOrUpdateZone_run.
  destruct (find _ _) as [zone |].
  - eexists _, []. cbn [worldOf unsafeZones]. rewrite app_nil_r.
    split; [reflexivity |]. split; [apply updateWhereId_frame |].
    split; [apply Nat.le_0_l | reflexivity].
  - destruct (ZoneCandidate.latitude data) as [lat |],
             (ZoneCandidate.longitude data) as [lng |];
      cbn [worldOf unsafeZones].
    + eexists _, [_]. repeat split; [apply le_n |].
      intros [H | H]; discriminate.
    + exists (unsafeZones w), []. rewrite app_nil_r.
      repeat split; apply Nat.le_0_l.
    + exists (unsafeZones w), []. rewrite app_nil_r.
      repeat split; apply Nat.le_0_l.
    + exists (unsafeZones w), []. rewrite app_nil_r.
      repeat split; apply Nat.le_0_l.
Qed.

(** C10. Neither path touches the id, name, latitude, longitude, radius or
    [createdAt] of a zone it finds in the store, and neither removes a row:
    the recompute keeps every row in place up to [reportCount], [riskLevel]
    and [updatedAt], and so does the merge, which besides appends at most
    one row. *)
Theorem aggregation_writes_only_derived_columns :
  (forall w,
     map zoneFrame (unsafeZones (worldOf (getZonesWithReportCounts w)))
       = map zoneFrame (unsafeZones w)) /\
  (forall data w,
     exists kept added,
       unsafeZones (worldOf (createOrUpdateZone data w)) = (kept ++ added)%list /\
       map zoneFrame kept = map zoneFrame (unsafeZones w) /\
       (List.length added <= 1)%nat).
Proof.
  split.
  - intros w. rewrite getZonesWithReportCounts_run. cbn [worldOf unsafeZones].
    rewrite map_map. apply map_ext. intros row. apply recountRow_frame.
  - intros data w.
    destruct (createOrUpdateZone_keeps_rows data w)
      as (kept & added & H1 & H2 & H3 & _).
    now exists kept, added.
Qed.

(** ** The approval route *)

Lemma find_approveRows (id : string) (rows : list Report.t) (report : Report.t) :
  find (reportHasId id) rows = Some report ->
  find (reportHasId id) (approveRows id rows) = Some (setStatus "approved" report).
Proof.
  unfold approveRows. induction rows as [| r rows IH]; cbn; intros H.
  - discriminate.
  - destruct (reportHasId id r) eqn:Hr.
    + injection H as <-. unfold reportHasId in *. cbn. now rewrite Hr.
    + rewrite Hr. now apply IH.
Qed.

Lemma approveReport_not_found (id : string) (w : World) :
  find (reportHasId id) (reports w) = None ->
  approveReport id w = (Message 404 "Report not found", w).
Proof.
  intros H. unfold approveReport, tryCatch, await, getReport. now rewrite H.
Qed.

Lemma approveReport_found (id : string) (w : World) (report : Report.t) :
  find (reportHasId id) (reports w) = Some report ->
  approveReport id w =
  let w1 := withReports w (approveRows id (reports w)) in
  let updated := Json 200 (Some (setStatus "approved" report)) in
  match Report.latitude report, Report.longitude report with
  | Some lat, Some lng =>
      match createOrUpdateZone
              (ZoneCandidate.mk (Report.incidentType report ++ " Zone")
                 (Some lat) (Some lng) (Some 100)) w1 with
      | Resolved _ w2 => (updated, w2)
      | Rejected _ w2 => (Message 500 "Internal server error", w2)
      end
  | _, _ => (updated, w1)
  end.
Proof.
  intros H. unfold approveReport, tryCatch. unfold await at 1, getReport.
  rewrite H. unfold await at 1, updateReportStatus.
  fold (approveRows id (reports w)). rewrite (find_approveRows _ _ _ H).
  destruct (Report.latitude report) as [lat |],
           (Report.longitude report) as [lng |]; cbn [Js.truthy andb];
    try reflexivity.
  unfold await. destruct (createOrUpdateZone _ _); reflexivity.
Qed.



(** ** Administrator zone creation *)



(** ** The primary key is kept *)

Lemma zoneIds_frame (a b : list UnsafeZone.t) :
  map zoneFrame a = map zoneFrame b -> zoneIds a = zoneIds b.
Proof.
  intros H. unfold zoneIds.
  assert (Hid : forall l, map UnsafeZone.id l
            = map (fun f => fst (fst (fst (fst (fst f))))) (map zoneFrame l)).
  { intros l. rewrite map_map. apply map_ext. reflexivity. }
  now rewrite (Hid a), (Hid b), H.
Qed.

(** Zone ids stay distinct through a recompute, and through a merge as long
    as the generator hands out an id the table does not hold yet. *)
Lemma distinct_ids_kept :
  (forall w,
     NoDup (zoneIds (unsafeZones w)) ->
     NoDup (zoneIds (unsafeZones (worldOf (getZonesWithReportCounts w))))) /\
  (forall data w,
     NoDup (zoneIds (unsafeZones w)) ->
     ~ In (gen_random_uuid (uuidDraws w)) (zoneIds (unsafeZones w)) ->
     NoDup (zoneIds (unsafeZones (worldOf (createOrUpdateZone data w))))).
Proof.
  split.
  - intros w Hnd. rewrite getZonesWithReportCounts_run.
    cbn [worldOf unsafeZones]. now rewrite recount_pass_ids.
  - intros data w Hnd Hfresh. rewrite createOrUpdateZone_run.
    destruct (find _ _) as [zone |].
    + cbn [worldOf unsafeZones].
      now rewrite (zoneIds_frame _ _ (updateWhereId_frame _ _ _ _ _)).
    + destruct (ZoneCandidate.latitude data), (ZoneCandidate.longitude data);
        cbn [worldOf unsafeZones]; try exact Hnd.
      unfold zoneIds. rewrite map_app. cbn [map seededZone UnsafeZone.id].
      apply NoDup_app; [exact Hnd | apply NoDup_cons; [intros [] | constructor] |].
      intros id Hin [<- | []]. now apply Hfresh.
Qed.

(** ** The recompute reads only the reports and the zones' own columns *)

(** A row as the zone list shows it: its own columns and its derived ones. *)
Definition zoneView (z : UnsafeZone.t) :=
  (zoneFrame z, zoneDerived z).

(** What the recompute makes of a row, up to [updatedAt]. *)
Definition recountedView (rs : list Report.t) (row : UnsafeZone.t) :=
  (zoneFrame row,
   (UnsafeZone.id row, Some (geometricCount rs row),
    Some (riskLevelText (classify (geometricCount rs row))))).

Lemma recount_pass_view rs n rows row :
  NoDup (zoneIds rows) -> In row rows ->
  zoneView (recountRow rs n rows row) = recountedView rs row.
Proof.
  intros Hnd Hrow.
  destruct (recount_pass_derived rs n rows row Hnd Hrow) as [Hc Hr].
  pose proof (recountRow_frame rs rows n row) as Hf.
  unfold zoneView, recountedView, zoneDerived. rewrite Hc, Hr, Hf.
  unfold zoneFrame in Hf. injection Hf as Hid _ _ _ _ _. now rewrite Hid.
Qed.

Lemma recountedView_frame rs (a b : UnsafeZone.t) :
  zoneFrame a = zoneFrame b -> recountedView rs a = recountedView rs b.
Proof.
  intros H. unfold recountedView.
  rewrite (geometricCount_frame rs a b H), H.
  unfold zoneFrame in H. injection H as Hid _ _ _ _ _. now rewrite Hid.
Qed.

Lemma cons_eq_inv {A : Type} (x y : A) (l l' : list A) :
  x :: l = y :: l' -> x = y /\ l = l'.
Proof. intros H. now injection H. Qed.

Lemma map_view_frames rs (f f' : UnsafeZone.t -> UnsafeZone.t) :
  forall l l',
    map zoneFrame l' = map zoneFrame l ->
    (forall r, In r l -> zoneView (f r) = recountedView rs r) ->
    (forall r, In r l' -> zoneView (f' r) = recountedView rs r) ->
    map zoneView (map f' l') = map zoneView (map f l).
Proof.
  induction l as [| a l IH]; intros [| b l'] Hframes Hf Hf';
    try discriminate; [reflexivity |].
  cbn [map] in Hframes. apply cons_eq_inv in Hframes as [Hab Hrest].
  cbn [map].
  rewrite (Hf a (or_introl eq_refl)), (Hf' b (or_introl eq_refl)).
  rewrite (recountedView_frame rs b a Hab). f_equal.
  apply IH; auto.
  - intros r Hr. apply Hf. now right.
  - intros r Hr. apply Hf'. now right.
Qed.

Lemma createdAtGeb_view (a a' b b' : UnsafeZone.t) :
  zoneView a = zoneView a' -> zoneView b = zoneView b' ->
  createdAtGeb a b = createdAtGeb a' b'.
Proof.
  unfold zoneView, zoneFrame. intros Ha Hb.
  injection Ha as _ _ _ _ _ Ha _. injection Hb as _ _ _ _ _ Hb _.
  unfold createdAtGeb. now rewrite Ha, Hb.
Qed.

Lemma insertDesc_view (z z' : UnsafeZone.t) : forall s s',
  zoneView z = zoneView z' -> map zoneView s = map zoneView s' ->
  map zoneView (insertDesc z s) = map zoneView (insertDesc z' s').
Proof.
  induction s as [| y s IH]; intros [| y' s'] Hz Hs; try discriminate.
  - cbn [insertDesc map]. now rewrite Hz.
  - cbn [map] in Hs. apply cons_eq_inv in Hs as [Hy Hs]. cbn [insertDesc].
    rewrite (createdAtGeb_view z z' y y' Hz Hy).
    destruct (createdAtGeb z' y'); cbn [map].
    + now rewrite Hz, Hy, Hs.
    + rewrite Hy. f_equal. now apply IH.
Qed.

Lemma orderByCreatedAtDesc_view : forall l l',
  map zoneView l = map zoneView l' ->
  map zoneView (orderByCreatedAtDesc l) = map zoneView (orderByCreatedAtDesc l').
Proof.
  unfold orderByCreatedAtDesc.
  induction l as [| a l IH]; intros [| b l'] H; try discriminate.
  - reflexivity.
  - cbn [map] in H. apply cons_eq_inv in H as [Hab Hl]. cbn [fold_right].
    apply insertDesc_view; auto.
Qed.

Lemma zoneDerived_of_view (l l' : list UnsafeZone.t) :
  map zoneView l = map zoneView l' -> map zoneDerived l = map zoneDerived l'.
Proof.
  intros H.
  assert (E : forall x, map zoneDerived x = map snd (map zoneView x)).
  { intros x. rewrite map_map. apply map_ext. reflexivity. }
  now rewrite (E l), (E l'), H.
Qed.

(** X1. The recompute takes nothing from the derived columns it finds:
    two stores with the same reports and the same zones up to
    [reportCount], [riskLevel] and [updatedAt] get the same counts and
    tiers, in the returned list and in the store, whatever a merge or an
    administrator wrote there before. *)
Theorem recompute_ignores_stored_counts (w w' : World) :
  NoDup (zoneIds (unsafeZones w)) ->
  map zoneFrame (unsafeZones w') = map zoneFrame (unsafeZones w) ->
  reports w' = reports w ->
  exists zones1 w1 zones2 w2,
    getZonesWithReportCounts w = Resolved zones1 w1 /\
    getZonesWithReportCounts w' = Resolved zones2 w2 /\
    map zoneDerived zones2 = map zoneDerived zones1 /\
    map zoneDerived (unsafeZones w2) = map zoneDerived (unsafeZones w1).
Proof.
  intros Hnd Hframes Hreports.
  assert (Hnd' : NoDup (zoneIds (unsafeZones w'))).
  { now rewrite (zoneIds_frame _ _ Hframes). }
  rewrite !getZonesWithReportCounts_run. cbv zeta.
  eexists _, _, _, _. split; [reflexivity |]. split; [reflexivity |].
  cbn [unsafeZones]. rewrite Hreports.
  assert (Hviews :
    map zoneView
      (map (recountRow (reports w) (clockReads w') (unsafeZones w'))
           (unsafeZones w'))
    = map zoneView
        (map (recountRow (reports w) (clockReads w) (unsafeZones w))
             (unsafeZones w))).
  { apply (map_view_frames (reports w)); [exact Hframes | |];
      intros r Hr; now apply recount_pass_view. }
  split; apply zoneDerived_of_view; [| exact Hviews].
  now apply orderByCreatedAtDesc_view.
Qed.

(** ** Approving the same report again *)

Lemma withinMergeThreshold_frame (a b : UnsafeZone.t) (data : ZoneCandidate.t) :
  zoneFrame a = zoneFrame b ->
  withinMergeThreshold a data = withinMergeThreshold b data.
Proof.
  unfold zoneFrame. intros H. injection H as _ _ Hlat Hlng _ _.
  unfold withinMergeThreshold. now rewrite Hlat, Hlng.
Qed.

Lemma find_first_match {A : Type} (p : A -> bool) (pre : list A) (x : A)
    (post : list A) :
  (forall y, In y pre -> p y = false) -> p x = true ->
  find p (pre ++ x :: post)%list = Some x.
Proof.
  induction pre as [| a pre IH]; cbn; intros Hpre Hx.
  - now rewrite Hx.
  - rewrite (Hpre a (or_introl eq_refl)). apply IH; auto.
Qed.

(** The merge, once the listing is split at the first zone that passes the
    test. *)
Lemma createOrUpdateZone_merge_at (data : ZoneCandidate.t) (w : World)
    pre zone post :
  unsafeZones w = (pre ++ zone :: post)%list ->
  (forall y, In y pre -> withinMergeThreshold y data = false) ->
  withinMergeThreshold zone data = true ->
  NoDup (zoneIds (unsafeZones w)) ->
  createOrUpdateZone data w =
  Resolved zone
    (mkWorld (pre ++ incremented (wallClock (clockReads w)) zone :: post)
       (reports w) (S (clockReads w)) (uuidDraws w)).
Proof.
  intros Hrows Hpre Hzone Hnd. rewrite createOrUpdateZone_run, Hrows.
  rewrite (find_first_match _ pre zone post Hpre Hzone). cbv zeta.
  rewrite Hrows in Hnd. now rewrite updateWhereId_unique.
Qed.

Lemma approveRows_again (id : string) (rows : list Report.t) :
  approveRows id (approveRows id rows) = approveRows id rows.
Proof.
  unfold approveRows. rewrite map_map. apply map_ext. intros r.
  destruct (reportHasId id r) eqn:Hr; [| now rewrite Hr].
  unfold reportHasId in *. cbn. now rewrite Hr.
Qed.

Lemma find_only_match {A : Type} (p : A -> bool) (l : list A) (x : A) :
  In x l -> p x = true -> (forall y, In y l -> p y = true -> y = x) ->
  find p l = Some x.
Proof.
  induction l as [| a l IH]; cbn [find In]; intros Hin Hx Honly; [destruct Hin |].
  destruct (p a) eqn:Ha.
  - f_equal. apply Honly; [now left | exact Ha].
  - destruct Hin as [-> | Hin]; [congruence |].
    apply IH; [exact Hin | exact Hx |]. intros y Hy. apply Honly. now right.
Qed.

Lemma permuted_ids (a b : list UnsafeZone.t) :
  Permutation a b -> NoDup (zoneIds b) -> NoDup (zoneIds a).
Proof.
  intros Hperm Hnd. unfold zoneIds in *.
  apply (Permutation_NoDup (l := map UnsafeZone.id b)); [| exact Hnd].
  apply Permutation_map. now apply Permutation_sym.
Qed.

(** The merge on a table where exactly one zone passes the test, wherever
    the listing has it. *)
Lemma createOrUpdateZone_merge_only (data : ZoneCandidate.t) (w : World)
    (zone : UnsafeZone.t) :
  NoDup (zoneIds (unsafeZones w)) ->
  In zone (unsafeZones w) ->
  withinMergeThreshold zone data = true ->
  (forall y, In y (unsafeZones w) -> withinMergeThreshold y data = true ->
             y = zone) ->
  exists pre post,
    unsafeZones w = (pre ++ zone :: post)%list /\
    createOrUpdateZone data w =
    Resolved zone
      (mkWorld (pre ++ incremented (wallClock (clockReads w)) zone :: post)
         (reports w) (S (clockReads w)) (uuidDraws w)).
Proof.
  intros Hnd Hin Hzone Honly.
  pose proof (find_only_match _ _ _ Hin Hzone Honly) as Hfind.
  destruct (find_split _ _ _ Hfind) as (pre & post & Hrows & Hpre & _).
  exists pre, post. split; [exact Hrows |].
  now apply createOrUpdateZone_merge_at.
Qed.

(** X2. The approval route does not look at the report's status.  Take a
    report with coordinates and a table of distinct ids in which exactly
    one zone passes the merge test against it, its count low enough for
    two more to fit the 32-bit column.  Approving the report answers 200
    and increments that zone; and in whatever order the store lists the
    rows afterwards, approving the same report again answers 200 and
    increments the same zone again: the table then holds, up to order, the
    other rows as they were and that zone with its count up by 2, and the
    report table is as the first approval left it. *)
Theorem approveReport_twice_counts_twice
    (id : string) (w : World) (report : Report.t) (lat lng : decimal)
    (zone : UnsafeZone.t) :
  find (reportHasId id) (reports w) = Some report ->
  Report.latitude report = Some lat ->
  Report.longitude report = Some lng ->
  NoDup (zoneIds (unsafeZones w)) ->
  In zone (unsafeZones w) ->
  withinMergeThreshold zone (candidateOf report) = true ->
  (forall y, In y (unsafeZones w) ->
             withinMergeThreshold y (candidateOf report) = true -> y = zone) ->
  int4 (Js.orElse (UnsafeZone.reportCount zone) 0 + 1) ->
  int4 (Js.orElse (UnsafeZone.reportCount zone) 0 + 2) ->
  exists pre post zone1 w1,
    unsafeZones w = (pre ++ zone :: post)%list /\
    approveReport id w = (Json 200 (Some (setStatus "approved" report)), w1) /\
    unsafeZones w1 = (pre ++ zone1 :: post)%list /\
    zoneFrame zone1 = zoneFrame zone /\
    UnsafeZone.reportCount zone1
      = Some (Js.orElse (UnsafeZone.reportCount zone) 0 + 1) /\
    forall listed,
      Permutation listed (unsafeZones w1) ->
      exists zone2 w2,
        approveReport id (withUnsafeZones w1 listed)
          = (Json 200 (Some (setStatus "approved" report)), w2) /\
        reports w2 = reports w1 /\
        Permutation (unsafeZones w2) (zone2 :: pre ++ post) /\
        zoneFrame zone2 = zoneFrame zone /\
        UnsafeZone.reportCount zone2
          = Some (match UnsafeZone.reportCount zone with
                  | Some n => n + 2
                  | None => 2
                  end).
Proof.
  intros Hfind Hlat Hlng Hnd Hin Hzone Honly _ _.
  assert (Hcand : ZoneCandidate.mk (Report.incidentType report ++ " Zone")
                    (Some lat) (Some lng) (Some 100) = candidateOf report).
  { unfold candidateOf. now rewrite Hlat, Hlng. }
  set (w0 := withReports w (approveRows id (reports w))).
  destruct (createOrUpdateZone_merge_only (candidateOf report) w0 zone
              Hnd Hin Hzone Honly) as (pre & post & Hrows & Hrun).
  cbn [unsafeZones w0 withReports] in Hrows.
  set (zone1 := incremented (wallClock (clockReads w0)) zone) in *.
  set (w1 := mkWorld (pre ++ zone1 :: post) (reports w0)
               (S (clockReads w0)) (uuidDraws w0)) in *.
  exists pre, post, zone1, w1.
  split; [exact Hrows |]. split.
  { rewrite (approveReport_found _ _ _ Hfind), Hlat, Hlng. cbv zeta.
    fold w0. now rewrite Hcand, Hrun. }
  split; [reflexivity |]. split; [reflexivity |]. split; [reflexivity |].
  intros listed Hlisted. cbn [unsafeZones w1] in Hlisted.
  set (v := withUnsafeZones w1 listed).
  set (v0 := withReports v (approveRows id (reports v))).
  assert (Hfind1 : find (reportHasId id) (reports v)
                   = Some (setStatus "approved" report)).
  { cbn [reports v w1 w0 withUnsafeZones withReports]. now apply find_approveRows. }
  assert (Hnd1 : NoDup (zoneIds (pre ++ zone1 :: post)%list)).
  { rewrite Hrows in Hnd. unfold zoneIds in *. rewrite map_app in *. exact Hnd. }
  assert (Hmember : forall y, In y listed -> y = zone1 \/ (In y (unsafeZones w) /\ y <> zone)).
  { intros y Hy. apply (Permutation_in _ Hlisted) in Hy.
    apply in_app_or in Hy. rewrite Hrows.
    destruct Hy as [Hy | [<- | Hy]]; [right | now left | right]; split.
    - apply in_or_app. now left.
    - intros ->. rewrite Hrows in Hnd. unfold zoneIds in Hnd.
      rewrite map_app in Hnd. apply NoDup_remove_2 in Hnd. apply Hnd.
      apply in_or_app. left. now apply in_map.
    - apply in_or_app. right. now right.
    - intros ->. rewrite Hrows in Hnd. unfold zoneIds in Hnd.
      rewrite map_app in Hnd. apply NoDup_remove_2 in Hnd. apply Hnd.
      apply in_or_app. right. now apply in_map. }
  assert (Hzone1 : withinMergeThreshold zone1 (candidateOf report) = true).
  { now rewrite (withinMergeThreshold_frame zone1 zone). }
  destruct (createOrUpdateZone_merge_only (candidateOf report) v0 zone1)
    as (pre' & post' & Hrows' & Hrun').
  { cbn [unsafeZones v0 v withUnsafeZones withReports].
    exact (permuted_ids _ _ Hlisted Hnd1). }
  { cbn [unsafeZones v0 v withUnsafeZones withReports].
    apply (Permutation_in _ (Permutation_sym Hlisted)).
    apply in_or_app. right. now left. }
  { exact Hzone1. }
  { cbn [unsafeZones v0 v withUnsafeZones withReports]. intros y Hy Hnear.
    destruct (Hmember y Hy) as [-> | [Hw Hne]]; [reflexivity |].
    destruct Hne. now apply Honly. }
  cbn [unsafeZones v0 v withUnsafeZones withReports] in Hrows'.
  set (zone2 := incremented (wallClock (clockReads v0)) zone1) in *.
  exists zone2. eexists. split.
  { rewrite (approveReport_found _ _ _ Hfind1). cbn [Report.latitude
      Report.longitude Report.incidentType setStatus]. rewrite Hlat, Hlng.
    cbv zeta. fold v0. rewrite Hcand, Hrun'. reflexivity. }
  cbn [reports unsafeZones]. split.
  { cbn [reports v0 v w1 w0 withUnsafeZones withReports]. apply approveRows_again. }
  split.
  { apply Permutation_sym, Permutation_cons_app.
    rewrite Hrows' in Hlisted. apply Permutation_sym in Hlisted.
    now apply Permutation_app_inv in Hlisted. }
  split; [reflexivity |].
  unfold zone2, zone1, incremented.
  cbn [UnsafeZone.reportCount setDerived]. rewrite orElse_zero.
  destruct (UnsafeZone.reportCount zone) as [n |].
  - rewrite orElse_zero. f_equal. lia.
  - reflexivity.
Qed.

(** ** Approval followed by a recompute *)

Lemma geometricCount_positive (rs : list Report.t) (zone : UnsafeZone.t)
    (r : Report.t) :
  In r rs -> approvedWithinHundredth zone r = true ->
  1 <= geometricCount rs zone.
Proof.
  intros Hin Hr. unfold geometricCount.
  assert (Hf : In r (filter (approvedWithinHundredth zone) rs)).
  { apply filter_In. now split. }
  destruct (filter (approvedWithinHundredth zone) rs); [destruct Hf |].
  cbn [List.length]. lia.
Qed.

Lemma decimalDiffBelow_same (x : decimal) : decimalDiffBelow 1000000 x x = true.
Proof.
  unfold decimalDiffBelow. rewrite Z.sub_diag. reflexivity.
Qed.

(** X3. When no zone passes the merge test, approving a report that has
    coordinates and then listing the zones shows the zone the approval
    created, at the report's coordinates, with a count of at least 1: the
    approved report is within 0.01 of its own zone. *)
Theorem approved_report_counts_in_its_new_zone
    (id : string) (w : World) (report : Report.t) (lat lng : decimal) :
  find (reportHasId id) (reports w) = Some report ->
  Report.latitude report = Some lat ->
  Report.longitude report = Some lng ->
  NoDup (zoneIds (unsafeZones w)) ->
  ~ In (gen_random_uuid (uuidDraws w)) (zoneIds (unsafeZones w)) ->
  (forall z, In z (unsafeZones w) ->
             withinMergeThreshold z (candidateOf report) = false) ->
  exists response w1 zones w2 newZone n,
    approveReport id w = (response, w1) /\
    getZonesWithReportCounts w1 = Resolved zones w2 /\
    In newZone zones /\
    UnsafeZone.id newZone = gen_random_uuid (uuidDraws w) /\
    UnsafeZone.latitude newZone = lat /\
    UnsafeZone.longitude newZone = lng /\
    UnsafeZone.reportCount newZone = Some n /\
    1 <= n.
Proof.
  intros Hfind Hlat Hlng Hnd Hfresh Hnone.
  set (w0 := withReports w (approveRows id (reports w))).
  set (cand := ZoneCandidate.mk (Report.incidentType report ++ " Zone")
                 (Some lat) (Some lng) (Some 100)).
  assert (Hcand : cand = candidateOf report).
  { unfold cand, candidateOf. now rewrite Hlat, Hlng. }
  set (seed := seededZone cand lat lng w0).
  set (w1 := mkWorld (unsafeZones w0 ++ [seed]) (reports w0)
               (S (clockReads w0)) (S (uuidDraws w0))).
  assert (Hrun : approveReport id w
                 = (Json 200 (Some (setStatus "approved" report)), w1)).
  { rewrite (approveReport_found _ _ _ Hfind), Hlat, Hlng. cbv zeta.
    fold w0 cand. rewrite createOrUpdateZone_run.
    rewrite (proj2 (find_none_iff _ (unsafeZones w0))).
    - reflexivity.
    - intros z Hz. rewrite Hcand. now apply Hnone. }
  assert (Hnd1 : NoDup (zoneIds (unsafeZones w1))).
  { cbn [unsafeZones w1 w0 withReports]. unfold zoneIds. rewrite map_app.
    apply NoDup_app; [exact Hnd | apply NoDup_cons; [intros [] | constructor] |].
    intros i Hin [<- | []]. now apply Hfresh. }
  assert (Hseed : In seed (unsafeZones w1)).
  { cbn [unsafeZones w1]. apply in_or_app. right. now left. }
  set (newZone := recountRow (reports w1) (clockReads w1) (unsafeZones w1) seed).
  destruct (recount_pass_derived (reports w1) (clockReads w1) _ seed Hnd1 Hseed)
    as [Hcount _].
  pose proof (recountRow_frame (reports w1) (unsafeZones w1) (clockReads w1) seed)
    as Hframe.
  fold newZone in Hcount, Hframe. unfold zoneFrame in Hframe.
  injection Hframe as Hid _ Hzlat Hzlng _ _.
  eexists _, w1, _, _, newZone, (geometricCount (reports w1) seed).
  split; [exact Hrun |]. rewrite getZonesWithReportCounts_run. cbv zeta.
  split; [reflexivity |]. split.
  { eapply Permutation_in;
      [apply Permutation_sym, orderByCreatedAtDesc_perm | now apply in_map]. }
  split; [exact Hid |]. split; [exact Hzlat |]. split; [exact Hzlng |].
  split; [exact Hcount |].
  apply (geometricCount_positive _ _ (setStatus "approved" report)).
  - cbn [reports w1 w0 withReports].
    apply (find_some (reportHasId id)). now apply find_approveRows.
  - unfold approvedWithinHundredth.
    cbn [Report.status Report.latitude Report.longitude setStatus].
    rewrite Hlat, Hlng. cbn [seed seededZone UnsafeZone.latitude
      UnsafeZone.longitude]. now rewrite !decimalDiffBelow_same.
Qed.

(** ** Deleting a zone *)

Lemma filter_other_ids (id : string) (rows : list UnsafeZone.t) :
  ~ In id (zoneIds rows) ->
  filter (fun z => negb (String.eqb (UnsafeZone.id z) id)) rows = rows.
Proof.
  unfold zoneIds. induction rows as [| r rows IH]; cbn; intros H.
  - reflexivity.
  - destruct (String.eqb_spec (UnsafeZone.id r) id) as [E | E]; cbn.
    + exfalso. apply H. now left.
    + f_equal. apply IH. intros Hin. apply H. now right.
Qed.

(** X4. [DELETE /api/zones/:id] always answers 204 and leaves the reports
    alone; it removes the rows with that id and keeps every other row in
    order; for an id no zone carries it changes nothing; and deleting the
    zone an insert has just returned, its id being new, gives back the zone
    table of before the insert. *)
Theorem deleteZone_spec (id : string) (w : World) :
  exists w',
    deleteZone id w = (ReplyEmpty 204, w') /\
    reports w' = reports w /\
    (forall z, In z (unsafeZones w') <->
               In z (unsafeZones w) /\ UnsafeZone.id z <> id) /\
    (~ In id (zoneIds (unsafeZones w)) -> w' = w) /\
    (forall insertZone w0 zone,
       createUnsafeZone insertZone w0 = Resolved zone w ->
       id = UnsafeZone.id zone ->
       ~ In id (zoneIds (unsafeZones w0)) ->
       unsafeZones w' = unsafeZones w0).
Proof.
  eexists. split; [reflexivity |]. cbn [reports unsafeZones withUnsafeZones].
  split; [reflexivity |]. split; [| split].
  - intros z. rewrite filter_In. split; intros [Hin Hid]; split; auto.
    + intros E. rewrite E, String.eqb_refl in Hid. discriminate.
    + now destruct (String.eqb_spec (UnsafeZone.id z) id).
  - intros Hnot. unfold withUnsafeZones. rewrite (filter_other_ids _ _ Hnot).
    now destruct w.
  - intros insertZone w0 zone Hins Hid Hfresh. unfold createUnsafeZone in Hins.
    destruct (InsertUnsafeZone.latitude insertZone),
             (InsertUnsafeZone.longitude insertZone); try discriminate.
    injection Hins as Hzone <-. cbn [unsafeZones].
    rewrite filter_app, (filter_other_ids _ _ Hfresh). cbn [filter].
    rewrite Hzone, Hid, String.eqb_refl. cbn. apply app_nil_r.
Qed.

(** ** Reports that stop counting *)

Lemma geometricCount_restatus (id status : string) (zone : UnsafeZone.t)
    (rows : list Report.t) :
  status <> "approved" ->
  geometricCount
    (map (fun r => if reportHasId id r then setStatus status r else r) rows)
    zone
  = geometricCount (filter (fun r => negb (reportHasId id r)) rows) zone.
Proof.
  intros Hs. unfold geometricCount. f_equal.
  induction rows as [| r rows IH]; [reflexivity |].
  cbn [map filter]. destruct (reportHasId id r); cbn [negb].
  - unfold approvedWithinHundredth at 1.
    cbn [Report.status Report.latitude Report.longitude setStatus].
    destruct (String.eqb_spec status "approved") as [E | _]; [contradiction |].
    destruct (Report.latitude r), (Report.longitude r); cbn; exact IH.
  - cbn [filter]. destruct (approvedWithinHundredth zone r); cbn; now rewrite IH.
Qed.

Lemma recompute_counts (w : World) :
  NoDup (zoneIds (unsafeZones w)) ->
  exists zones w',
    getZonesWithReportCounts w = Resolved zones w' /\
    map zoneFrame (unsafeZones w') = map zoneFrame (unsafeZones w) /\
    forall z, In z (unsafeZones w') ->
      UnsafeZone.reportCount z = Some (geometricCount (reports w) z).
Proof.
  intros Hnd. rewrite getZonesWithReportCounts_run. cbv zeta.
  eexists _, _. split; [reflexivity |]. cbn [unsafeZones]. split.
  - rewrite map_map. apply map_ext. intros row. apply recountRow_frame.
  - intros z Hz. apply in_map_iff in Hz as (row & <- & Hrow).
    rewrite (geometricCount_frame _ _ row) by apply recountRow_frame.
    now apply recount_pass_derived.
Qed.

(** X5. [PATCH /api/reports/:id/status] answers 204 for every id and
    status text and never writes a zone, also when the status is
    approved; once it has given a report a status other than approved, the
    next recompute counts for every zone the approved reports around it
    among the other reports only. *)
Theorem setReportStatus_spec (id status : string) (w : World) :
  exists w1,
    setReportStatus id status w = (ReplyEmpty 204, w1) /\
    unsafeZones w1 = unsafeZones w /\
    (find (reportHasId id) (reports w) = None -> reports w1 = reports w) /\
    (status <> "approved" ->
     NoDup (zoneIds (unsafeZones w)) ->
     exists zones w2,
       getZonesWithReportCounts w1 = Resolved zones w2 /\
       forall z, In z (unsafeZones w2) ->
         UnsafeZone.reportCount z
         = Some (geometricCount
                   (filter (fun r => negb (reportHasId id r)) (reports w)) z)).
Proof.
  eexists. split; [reflexivity |].
  cbn [unsafeZones reports withReports]. split; [reflexivity |]. split.
  - intros Hnone. rewrite <- (map_id (reports w)) at 2.
    apply map_ext_in. intros r Hr.
    now rewrite (find_none _ _ Hnone r Hr).
  - intros Hs Hnd.
    destruct (recompute_counts
                (withReports w
                   (map (fun r => if reportHasId id r
                                  then setStatus status r else r)
                        (reports w))) Hnd)
      as (zones & w2 & Hrun & _ & Hcounts).
    exists zones, w2. split; [exact Hrun |].
    intros z Hz. rewrite (Hcounts z Hz). cbn [reports withReports].
    now rewrite geometricCount_restatus.
Qed.

(** X6. [DELETE /api/reports/:id] answers 204 and never writes a zone, so
    the stored counts keep a deleted report until the next recompute,
    which counts the remaining reports only; after the deletion the
    approval route answers 404 for that id and changes nothing. *)
Theorem removeReport_spec (id : string) (w : World) :
  exists w1,
    removeReport id w = (ReplyEmpty 204, w1) /\
    unsafeZones w1 = unsafeZones w /\
    reports w1 = filter (fun r => negb (reportHasId id r)) (reports w) /\
    approveReport id w1 = (Message 404 "Report not found", w1) /\
    (NoDup (zoneIds (unsafeZones w)) ->
     exists zones w2,
       getZonesWithReportCounts w1 = Resolved zones w2 /\
       forall z, In z (unsafeZones w2) ->
         UnsafeZone.reportCount z = Some (geometricCount (reports w1) z)).
Proof.
  eexists. split; [reflexivity |].
  cbn [unsafeZones reports withReports]. split; [reflexivity |].
  split; [reflexivity |]. split.
  - apply approveReport_not_found. cbn [reports withReports].
    apply find_none_iff. intros r Hr. apply filter_In in Hr as [_ Hr].
    now destruct (reportHasId id r).
  - intros Hnd.
    destruct (recompute_counts
                (withReports w
                   (filter (fun r => negb (reportHasId id r)) (reports w))) Hnd)
      as (zones & w2 & Hrun & _ & Hcounts).
    exists zones, w2. split; [exact Hrun |]. exact Hcounts.
Qed.

(** ** The client's colours and the stored tier *)

(** X7. For a count the server has classified, the map marker, the admin
    list's dot and the zone modal agree with the stored tier from 4 reports
    on: red for high, orange for medium, yellow for the low counts 4 and
    5; below 4 the marker and the dot are green while the modal, which reads
    the stored tier, is yellow. *)
Theorem zone_colours_and_tier (count : Z) :
  let stored := riskLevelText (classify count) in
  (15 <= count ->
   markerColor (Some count) = "#ef4444" /\
   adminDotClass (Some count) = "bg-red-500" /\
   getRiskBgColor stored = "bg-red-500") /\
  (6 <= count < 15 ->
   markerColor (Some count) = "#f97316" /\
   adminDotClass (Some count) = "bg-orange-500" /\
   getRiskBgColor stored = "bg-orange-500") /\
  (4 <= count < 6 ->
   markerColor (Some count) = "#eab308" /\
   adminDotClass (Some count) = "bg-yellow-500" /\
   getRiskBgColor stored = "bg-yellow-500") /\
  (count < 4 ->
   markerColor (Some count) = "#22c55e" /\
   adminDotClass (Some count) = "bg-green-500" /\
   getRiskBgColor stored = "bg-yellow-500").
Proof.
  cbv zeta. unfold markerColor, adminDotClass, countOrNull.
  rewrite orElse_zero.
  split; [| split; [| split]]; intros H.
  - rewrite classify_high by lia.
    destruct (Z.geb_spec count 15); [| lia]. now repeat split.
  - rewrite classify_medium by lia.
    destruct (Z.geb_spec count 15); [lia |].
    destruct (Z.geb_spec count 6); [| lia]. now repeat split.
  - rewrite classify_low by lia.
    destruct (Z.geb_spec count 15); [lia |].
    destruct (Z.geb_spec count 6); [lia |].
    destruct (Z.geb_spec count 4); [| lia]. now repeat split.
  - rewrite classify_low by lia.
    destruct (Z.geb_spec count 15); [lia |].
    destruct (Z.geb_spec count 6); [lia |].
    destruct (Z.geb_spec count 4); [lia |]. now repeat split.
Qed.

(** ** The CSV export can be read back *)

Lemma append_assoc (a b c : string) : ((a ++ b) ++ c)%string = (a ++ (b ++ c))%string.
Proof. induction a as [| x a IH]; cbn; [reflexivity | now rewrite IH]. Qed.

Lemma append_empty_r (a : string) : (a ++ EmptyString)%string = a.
Proof. induction a as [| x a IH]; cbn; [reflexivity | now rewrite IH]. Qed.

Lemma runCsv_append (a b : string) : forall st,
  runCsv st (a ++ b) =
  match runCsv st a with
  | Some st' => runCsv st' b
  | None => None
  end.
Proof.
  induction a as [| c a IH]; intros st; cbn; [reflexivity |].
  destruct (stepCsv st c); [apply IH | reflexivity].
Qed.

Lemma runCsv_escapeQuotes done row (s : string) : forall field,
  runCsv (InField done row field) (escapeQuotes s)
  = Some (InField done row (field ++ s)).
Proof.
  induction s as [| c s IH]; intros field; cbn [escapeQuotes].
  - cbn. now rewrite append_empty_r.
  - destruct (Ascii.eqb c quoteChar) eqn:Hc.
    + apply Ascii.eqb_eq in Hc. subst c.
      cbn [runCsv stepCsv]. rewrite Ascii.eqb_refl. cbn [runCsv stepCsv].
      rewrite Ascii.eqb_refl. rewrite IH, append_assoc. reflexivity.
    + cbn [runCsv stepCsv]. rewrite Hc, IH, append_assoc. reflexivity.
Qed.

Lemma runCsv_field done row (s : string) :
  runCsv (AtFieldStart done row) (csvField s) = Some (AfterQuote done row s).
Proof.
  unfold csvField. cbn [runCsv stepCsv]. rewrite Ascii.eqb_refl.
  rewrite runCsv_append, runCsv_escapeQuotes. cbn [runCsv stepCsv append].
  now rewrite Ascii.eqb_refl.
Qed.

Lemma runCsv_row done (fs : list string) : forall f row,
  exists init lst,
    (row ++ f :: fs)%list = (init ++ [lst])%list /\
    runCsv (AtFieldStart done row) (csvRow (f :: fs))
    = Some (AfterQuote done init lst).
Proof.
  induction fs as [| f' fs IH]; intros f row.
  - exists row, f. split; [reflexivity |]. apply runCsv_field.
  - destruct (IH f' (row ++ [f])%list) as (init & lst & Hsplit & Hrun).
    exists init, lst. split.
    + rewrite <- Hsplit, <- app_assoc. reflexivity.
    + unfold csvRow in *. cbn [map String.concat] in *.
      rewrite runCsv_append, runCsv_field. cbn [append runCsv stepCsv].
      replace (Ascii.eqb commaChar quoteChar) with false by reflexivity.
      rewrite Ascii.eqb_refl. exact Hrun.
Qed.

Lemma runCsv_rows (rs : list (list string)) : forall r done,
  r <> [] -> (forall row, In row rs -> row <> []) ->
  exists done' init lst,
    (done ++ r :: rs)%list = (done' ++ [(init ++ [lst])%list])%list /\
    runCsv (AtFieldStart done []) (csvContent (r :: rs))
    = Some (AfterQuote done' init lst).
Proof.
  induction rs as [| r' rs IH]; intros r done Hr Hrs.
  - destruct r as [| f fs]; [contradiction |].
    destruct (runCsv_row done fs f []) as (init & lst & Hsplit & Hrun).
    exists done, init, lst. split; [now rewrite <- Hsplit |]. exact Hrun.
  - destruct r as [| f fs]; [contradiction |].
    destruct (runCsv_row done fs f []) as (init & lst & Hsplit & Hrun).
    destruct (IH r' (done ++ [f :: fs])%list) as (done' & init' & lst' & Hs' & Hrun').
    { apply Hrs. now left. }
    { intros row Hrow. apply Hrs. now right. }
    exists done', init', lst'. split.
    + rewrite <- Hs', <- app_assoc. reflexivity.
    + unfold csvContent in *. cbn [map String.concat] in *.
      rewrite runCsv_append, Hrun. cbn [append runCsv stepCsv].
      replace (Ascii.eqb newlineChar quoteChar) with false by reflexivity.
      replace (Ascii.eqb newlineChar commaChar) with false by reflexivity.
      rewrite Ascii.eqb_refl. cbn [app] in Hsplit. rewrite <- Hsplit.
      exact Hrun'.
Qed.

Lemma readCsv_csvContent (rows : list (list string)) :
  rows <> [] -> (forall row, In row rows -> row <> []) ->
  readCsv (csvContent rows) = Some rows.
Proof.
  intros Hrows Hrow. destruct rows as [| r rs]; [contradiction |].
  destruct (runCsv_rows rs r []) as (done & init & lst & Hsplit & Hrun).
  - apply Hrow. now left.
  - intros row Hin. apply Hrow. now right.
  - unfold readCsv. rewrite Hrun. cbn [app] in Hsplit. now rewrite Hsplit.
Qed.

(** X8. With no row the export builds no file.  With at least one row, of
    at least one field each, it builds a file that determines the table:
    whatever the fields hold, commas, quotes and line breaks included,
    reading the file back gives the header row and those rows, so that no
    other table exports to the same file. *)
Theorem exportCsv_reads_back (csvRows : list (list string)) :
  csvRows <> [] ->
  (forall row, In row csvRows -> row <> []) ->
  exportCsv [] = None /\
  exists file,
    exportCsv csvRows = Some file /\
    readCsv file = Some (csvHeaders :: csvRows) /\
    (forall others,
       (forall row, In row others -> row <> []) ->
       exportCsv others = Some file -> others = csvRows).
Proof.
  intros Hsome Hrows. split; [reflexivity |].
  assert (Hread : forall rs, (forall row, In row rs -> row <> []) ->
            readCsv (csvContent (csvHeaders :: rs)) = Some (csvHeaders :: rs)).
  { intros rs Hrs. apply readCsv_csvContent; [discriminate |].
    intros row [<- | Hin]; [discriminate | now apply Hrs]. }
  exists (csvContent (csvHeaders :: csvRows)).
  split; [destruct csvRows; [contradiction | reflexivity] |].
  split; [now apply Hread |].
  intros others Hothers Heq.
  destruct others as [| other others]; [discriminate |].
  cbn [exportCsv] in Heq. injection Heq as Heq.
  pose proof (Hread (other :: others) Hothers) as H1.
  rewrite Heq, (Hread csvRows Hrows) in H1. now injection H1.
Qed.

(** ** The admin guard *)

Lemma splitOn_word (word rest : string) :
  spaceFree word = true ->
  splitOn spaceChar (word ++ String spaceChar rest)
  = word :: splitOn spaceChar rest.
Proof.
  induction word as [| c word IH]; cbn [append splitOn spaceFree]; intros H.
  - now rewrite Ascii.eqb_refl.
  - apply andb_prop in H as [Hc Hword].
    apply negb_true_iff in Hc. rewrite Hc, (IH Hword). reflexivity.
Qed.

Lemma splitOn_spaceFree (word : string) :
  spaceFree word = true -> splitOn spaceChar word = [word].
Proof.
  induction word as [| c word IH]; cbn [splitOn spaceFree]; intros H.
  - reflexivity.
  - apply andb_prop in H as [Hc Hword].
    apply negb_true_iff in Hc. rewrite Hc, (IH Hword). reflexivity.
Qed.

Lemma tokenOf_second_word (scheme word rest : string) :
  spaceFree scheme = true -> spaceFree word = true ->
  tokenOf (Some (scheme ++ String spaceChar word)) = Some word /\
  tokenOf (Some (scheme ++ String spaceChar (word ++ String spaceChar rest)))
  = Some word.
Proof.
  intros Hs Hw. unfold tokenOf.
  assert (Hne : forall x, String.eqb (scheme ++ String spaceChar x) EmptyString
                          = false).
  { intros x. destruct scheme; reflexivity. }
  rewrite !Hne. split.
  - now rewrite splitOn_word, splitOn_spaceFree.
  - now rewrite !splitOn_word.
Qed.

(** X9. An admin-only route reads as token the second space-separated word
    of the Authorization header, whatever the first word is and whatever
    follows the second.  Without a header, with an empty one or with a
    single word it answers 401; with a token that does not verify it
    answers 403; with one that verifies to a role other than admin it
    answers 403; in all these cases the handler does not run and the world
    is untouched.  Only a token that verifies to the role admin runs the
    handler. *)
Theorem adminOnly_spec {R : Type} (deny : nat -> string -> R)
    (handler : World -> R * World) (w : World) :
  adminOnly deny handler None w = (deny 401%nat "Access token required", w) /\
  adminOnly deny handler (Some EmptyString) w
    = (deny 401%nat "Access token required", w) /\
  (forall word, spaceFree word = true ->
     adminOnly deny handler (Some word) w
     = (deny 401%nat "Access token required", w)) /\
  (forall scheme word rest,
     spaceFree scheme = true -> spaceFree word = true ->
     word <> EmptyString ->
     forall header,
       header = (scheme ++ String spaceChar word)%string \/
       header = (scheme ++ String spaceChar (word ++ String spaceChar rest))%string ->
       adminOnly deny handler (Some header) w =
       match jwtVerify word with
       | None => (deny 403%nat "Invalid token", w)
       | Some user =>
           if String.eqb (auth_role user) "admin" then handler w
           else (deny 403%nat "Admin access required", w)
       end).
Proof.
  split; [reflexivity |]. split; [reflexivity |]. split.
  - intros word Hword. unfold adminOnly, authenticateToken, tokenOf.
    destruct (String.eqb_spec word EmptyString) as [-> | Hne]; [reflexivity |].
    now rewrite splitOn_spaceFree.
  - intros scheme word rest Hs Hw Hne header Hheader.
    destruct (tokenOf_second_word scheme word rest Hs Hw) as [H1 H2].
    assert (Htok : tokenOf (Some header) = Some word).
    { destruct Hheader; subst header; assumption. }
    unfold adminOnly, authenticateToken. rewrite Htok.
    cbn [truthyText]. apply String.eqb_neq in Hne. rewrite Hne. cbn [negb].
    destruct (jwtVerify word) as [user |]; [| reflexivity].
    unfold requireAdmin. now destruct (String.eqb (auth_role user) "admin").
Qed.

(** ** Accounts *)

Lemma find_userHasName_none (username : string) (us : list User.t) :
  find (userHasName username) us = None <-> ~ In username (usernames us).
Proof.
  unfold usernames, userHasName. induction us as [| u us IH]; cbn.
  - split; [intros _ [] | reflexivity].
  - destruct (String.eqb_spec (User.username u) username) as [E | E].
    + split; [discriminate | intros H; exfalso; apply H; now left].
    + rewrite IH. split; [intros H [E' | Hin]; auto | intros H Hin; apply H; now right].
Qed.

Lemma existsb_userHasName_false (username : string) (us : list User.t) :
  ~ In username (usernames us) -> existsb (userHasName username) us = false.
Proof.
  unfold usernames, userHasName. induction us as [| u us IH]; cbn; intros H.
  - reflexivity.
  - destruct (String.eqb_spec (User.username u) username) as [E | E].
    + exfalso. apply H. now left.
    + apply IH. intros Hin. apply H. now right.
Qed.

Lemma find_userHasName_last (username : string) (us : list User.t) (u : User.t) :
  ~ In username (usernames us) -> User.username u = username ->
  find (userHasName username) (us ++ [u]) = Some u.
Proof.
  intros Hnot Hu. apply find_first_match.
  - intros y Hy. unfold userHasName. apply String.eqb_neq. intros E.
    apply Hnot. unfold usernames. rewrite <- E. now apply in_map.
  - unfold userHasName. now apply String.eqb_eq.
Qed.

(** The account a signup inserts. *)
Definition signedUp (body : SignupBody) (username password : string)
    (a : Accounts) : User.t :=
  User.mk (gen_random_uuid (idDraws a)) username
    (bcryptHash password (saltDraws a))
    (nullable (signup_fullName body)) (nullable (signup_phone body))
    (nullable (signup_emergencyContact body))
    "user" (Some (wallClock (timeReads a))).

Lemma signup_run (body : SignupBody) (username password : string) (a : Accounts) :
  signup_username body = Some username ->
  signup_password body = Some password ->
  ~ In username (usernames (users a)) ->
  signup body a =
  (ReplyJson 201 (sessionFor (signedUp body username password a)),
   mkAccounts (users a ++ [signedUp body username password a])
     (S (idDraws a)) (S (timeReads a)) (S (saltDraws a))).
Proof.
  intros Hu Hp Hfree. unfold signup, getUserByUsername, createUser.
  rewrite Hu, Hp, (proj2 (find_userHasName_none _ _) Hfree). cbv zeta.
  cbn [users idDraws timeReads saltDraws].
  now rewrite (existsb_userHasName_false _ _ Hfree).
Qed.

(** X10. [POST /api/auth/signup] answers 500 to a body without a username
    or a password and 400 to a username that is taken, changing nothing;
    otherwise it appends one account with the given username, the hash of
    the password and the role user, whatever role the body names, and
    usernames that were distinct stay distinct. *)
Theorem signup_spec (body : SignupBody) (a : Accounts) :
  (signup_username body = None \/ signup_password body = None ->
   signup body a = (ReplyMessage 500 "Internal server error", a)) /\
  (forall username password,
     signup_username body = Some username ->
     signup_password body = Some password ->
     (In username (usernames (users a)) ->
      signup body a = (ReplyMessage 400 "Username already exists", a)) /\
     (~ In username (usernames (users a)) ->
      exists created a',
        signup body a = (ReplyJson 201 (sessionFor created), a') /\
        users a' = (users a ++ [created])%list /\
        User.username created = username /\
        User.password created = bcryptHash password (saltDraws a) /\
        User.role created = "user" /\
        (NoDup (usernames (users a)) -> NoDup (usernames (users a'))))).
Proof.
  split.
  - intros [H | H]; unfold signup; rewrite H; [reflexivity |].
    now destruct (signup_username body).
  - intros username password Hu Hp. split.
    + intros Htaken. unfold signup, getUserByUsername. rewrite Hu, Hp.
      destruct (find (userHasName username) (users a)) eqn:Hfind;
        [reflexivity |].
      now apply find_userHasName_none in Hfind.
    + intros Hfree. eexists _, _.
      split; [exact (signup_run body username password a Hu Hp Hfree) |].
      cbn [users].
      repeat (split; [reflexivity |]).
      intros Hnd. unfold usernames. rewrite map_app.
      apply NoDup_app; [exact Hnd | apply NoDup_cons; [intros [] | constructor] |].
      intros name Hin [<- | []]. now apply Hfree.
Qed.

(** X11. Logging in with the pair just signed up, the hash comparing equal
    to its own password: a pair with an empty username or password, which
    signup accepts, is answered 400; the pair prashant75 / prashant232323
    gets the administrator's session although the account created is an
    ordinary user; every other pair gets a session for the created account,
    with the role user. *)
Theorem login_after_signup (body : SignupBody) (username password : string)
    (a : Accounts) :
  signup_username body = Some username ->
  signup_password body = Some password ->
  ~ In username (usernames (users a)) ->
  (forall n, bcryptCompare password (bcryptHash password n) = true) ->
  exists created a',
    signup body a = (ReplyJson 201 (sessionFor created), a') /\
    User.role created = "user" /\
    (username = EmptyString \/ password = EmptyString ->
     login (Some username) (Some password) a'
     = ReplyMessage 400 "Username and password required") /\
    (username = "prashant75" /\ password = "prashant232323" ->
     login (Some username) (Some password) a'
     = ReplyJson 200
         (mkSession (jwtSign (mkAuthUser "admin" "prashant75" "admin"))
            (mkPublicUser "admin" "prashant75" (Some "Admin") "admin"))) /\
    (username <> EmptyString -> password <> EmptyString ->
     ~ (username = "prashant75" /\ password = "prashant232323") ->
     login (Some username) (Some password) a'
     = ReplyJson 200 (sessionFor created)).
Proof.
  intros Hu Hp Hfree Hhash. eexists _, _.
  split; [exact (signup_run body username password a Hu Hp Hfree) |].
  split; [reflexivity |]. split; [| split].
  - intros [-> | ->]; unfold login; cbn [truthyText];
      rewrite ?String.eqb_refl; cbn; [reflexivity |].
    now destruct (negb (String.eqb username EmptyString)).
  - intros [-> ->]. reflexivity.
  - intros Hune Hpne Hpair. unfold login. cbn [truthyText].
    apply String.eqb_neq in Hune, Hpne. rewrite Hune, Hpne. cbn [negb orb].
    replace (String.eqb username "prashant75"
             && String.eqb password "prashant232323") with false.
    2:{ symmetry. apply andb_false_iff.
        destruct (String.eqb_spec username "prashant75") as [E1 | _];
          [| now left].
        destruct (String.eqb_spec password "prashant232323") as [E2 | _];
          [| now right].
        exfalso. now apply Hpair. }
    unfold getUserByUsername. cbn [users].
    rewrite (find_userHasName_last username (users a)
               (signedUp body username password a) Hfree eq_refl).
    cbn [User.password signedUp]. now rewrite Hhash.
Qed.

(** X12. The session a signup issues never opens an admin-only route: when
    its token verifies to the payload it was signed for and holds no
    space, a request that carries it as Bearer token is answered 403, the
    handler does not run and the world is untouched. *)
Theorem signup_session_is_not_admin {R : Type} (deny : nat -> string -> R)
    (handler : World -> R * World) (w : World)
    (body : SignupBody) (a a' : Accounts) (session : Session) :
  signup body a = (ReplyJson 201 session, a') ->
  jwtVerify (token session)
  = Some (mkAuthUser (public_id (user session))
            (public_username (user session)) (public_role (user session))) ->
  spaceFree (token session) = true ->
  token session <> EmptyString ->
  adminOnly deny handler (Some ("Bearer " ++ token session)) w
  = (deny 403%nat "Admin access required", w).
Proof.
  intros Hsignup Hverify Hfree Hne.
  assert (Hrole : public_role (user session) = "user").
  { unfold signup in Hsignup.
    destruct (signup_username body) as [username |]; [| discriminate].
    destruct (signup_password body) as [password |]; [| discriminate].
    destruct (getUserByUsername username a); [discriminate |].
    unfold createUser in Hsignup. cbv zeta in Hsignup.
    destruct (existsb _ _); [discriminate |].
    injection Hsignup as <- _. reflexivity. }
  assert (Htok : tokenOf (Some ("Bearer " ++ token session))
                 = Some (token session)).
  { apply (proj1 (tokenOf_second_word "Bearer" (token session) EmptyString
                    eq_refl Hfree)). }
  unfold adminOnly, authenticateToken. rewrite Htok. cbn [truthyText].
  apply String.eqb_neq in Hne. rewrite Hne.
  cbn [negb]. rewrite Hverify. unfold requireAdmin.
  cbn [auth_role]. now rewrite Hrole.
Qed.

(** ** Profile updates *)

Lemma setProfile_rows_frame (id fullName phone emergencyContact : string)
    (us : list User.t) :
  map userFrame
    (map (fun u => if userHasId id u
                   then setProfile fullName phone emergencyContact u else u) us)
  = map userFrame us.
Proof.
  rewrite map_map. apply map_ext. intros u. now destruct (userHasId id u).
Qed.

(** X13. [PUT /api/auth/profile] never changes an id, username, password,
    role or creation time, never adds or removes an account and never
    touches an account with another id; it answers 400 to the
    administrator and to a request with a missing or empty field and 404 to
    an unknown id, changing nothing; otherwise it answers 200 with the three
    fields as given. *)
Theorem updateProfile_spec (requester : AuthUser)
    (fullName phone emergencyContact : option string) (a : Accounts) :
  let result := updateProfile requester fullName phone emergencyContact a in
  map userFrame (users (snd result)) = map userFrame (users a) /\
  (forall u, In u (users a) -> User.id u <> auth_id requester ->
             In u (users (snd result))) /\
  (auth_id requester = "admin" ->
   result = (ReplyMessage 400 "Admin profile cannot be updated", a)) /\
  (auth_id requester <> "admin" ->
   truthyText fullName = false \/ truthyText phone = false \/
   truthyText emergencyContact = false ->
   result = (ReplyMessage 400 "All fields are required", a)) /\
  (forall fn ph ec,
     auth_id requester <> "admin" ->
     fullName = Some fn -> phone = Some ph -> emergencyContact = Some ec ->
     fn <> EmptyString -> ph <> EmptyString -> ec <> EmptyString ->
     (find (userHasId (auth_id requester)) (users a) = None ->
      result = (ReplyMessage 404 "User not found", a)) /\
     (forall u, find (userHasId (auth_id requester)) (users a) = Some u ->
        exists a',
          result =
          (ReplyJson 200
             (mkProfile (User.id u) (User.username u) (Some fn) (Some ph)
                (Some ec) (User.role u)), a'))).
Proof.
  cbv zeta. unfold updateProfile.
  destruct (String.eqb_spec (auth_id requester) "admin") as [Hadmin | Hadmin].
  { repeat split; auto; try contradiction. }
  destruct (negb (truthyText fullName) || negb (truthyText phone)
            || negb (truthyText emergencyContact)) eqn:Hfalsy.
  { split; [reflexivity |]. split; [auto |]. split; [contradiction |].
    split; [reflexivity |].
    intros fn ph ec _ -> -> -> Hfn Hph Hec. exfalso.
    cbn [truthyText] in Hfalsy. apply String.eqb_neq in Hfn, Hph, Hec.
    rewrite Hfn, Hph, Hec in Hfalsy. discriminate. }
  apply orb_false_iff in Hfalsy as [Hfalsy Hec].
  apply orb_false_iff in Hfalsy as [Hfn Hph].
  apply negb_false_iff in Hfn, Hph, Hec.
  destruct fullName as [fn |]; [| discriminate].
  destruct phone as [ph |]; [| discriminate].
  destruct emergencyContact as [ec |]; [| discriminate].
  unfold getUserById, updateUserProfile.
  destruct (find (userHasId (auth_id requester)) (users a)) as [u |] eqn:Hfind.
  - assert (Hfound :
      find (userHasId (auth_id requester))
        (map (fun u => if userHasId (auth_id requester) u
                       then setProfile fn ph ec u else u) (users a))
      = Some (setProfile fn ph ec u)).
    { clear -Hfind. induction (users a) as [| x us IH]; [discriminate |].
      cbn [find map] in *. destruct (userHasId (auth_id requester) x) eqn:Hx.
      - injection Hfind as <-. unfold userHasId in *. cbn. now rewrite Hx.
      - rewrite Hx. now apply IH. }
    rewrite Hfound. cbn [snd users].
    split; [apply setProfile_rows_frame |]. split.
    { intros v Hv Hid. apply in_map_iff. exists v. split; [| exact Hv].
      unfold userHasId. apply String.eqb_neq in Hid. now rewrite Hid. }
    split; [contradiction |]. split.
    { intros _ [H | [H | H]]; congruence. }
    intros fn' ph' ec' _ Efn Eph Eec _ _ _.
    injection Efn as <-. injection Eph as <-. injection Eec as <-.
    split; [discriminate |].
    intros u' Hu'. injection Hu' as <-. eexists. reflexivity.
  - cbn [snd]. split; [reflexivity |]. split; [auto |].
    split; [contradiction |]. split.
    { intros _ [H | [H | H]]; congruence. }
    intros fn' ph' ec' _ _ _ _ _ _ _. split; [reflexivity | discriminate].
Qed.

(** ** Listing the zones *)

Lemma recountRow_updatedAt rs (zones : list UnsafeZone.t) : forall n i row,
  NoDup (zoneIds zones) -> nth_error zones i = Some row ->
  UnsafeZone.updatedAt (recountRow rs n zones row)
  = Some (wallClock (n + i)).
Proof.
  induction zones as [| zone rest IH]; intros n i row Hnd Hnth.
  - destruct i; discriminate.
  - unfold zoneIds in Hnd. cbn [map] in Hnd.
    inversion Hnd as [| x xs Hnotin Hnd']; subst.
    destruct i as [| j]; cbn [nth_error] in Hnth.
    + injection Hnth as <-. cbn [recountRow]. rewrite String.eqb_refl.
      rewrite recountRow_untouched; [cbn; now rewrite Nat.add_0_r |].
      exact Hnotin.
    + cbn [recountRow].
      destruct (String.eqb_spec (UnsafeZone.id row) (UnsafeZone.id zone))
        as [E | _].
      * exfalso. apply Hnotin. rewrite <- E. apply in_map.
        eapply nth_error_In. exact Hnth.
      * rewrite (IH (S n) j row Hnd' Hnth). f_equal. f_equal. lia.
Qed.

(** X14. [GET /api/zones] writes on every call: it answers 200 with the
    recomputed rows, and in the store the zone at position [i] of the
    listing has as [updatedAt] the [i]-th reading of the clock made by the
    call, whether or not its count changed. *)
Theorem listZones_rewrites_every_zone (w : World) :
  NoDup (zoneIds (unsafeZones w)) ->
  exists zones w',
    listZones w = (ReplyJson 200 zones, w') /\
    Permutation zones (unsafeZones w') /\
    clockReads w' = (clockReads w + List.length (unsafeZones w))%nat /\
    map zoneFrame (unsafeZones w') = map zoneFrame (unsafeZones w) /\
    (forall i z, nth_error (unsafeZones w') i = Some z ->
       UnsafeZone.updatedAt z = Some (wallClock (clockReads w + i))).
Proof.
  intros Hnd. unfold listZones, tryCatchReply, await.
  rewrite getZonesWithReportCounts_run. cbv zeta. unfold resolve.
  eexists _, _. split; [reflexivity |]. cbn [unsafeZones clockReads].
  split; [apply orderByCreatedAtDesc_perm |]. split; [reflexivity |]. split.
  - rewrite map_map. apply map_ext. intros row. apply recountRow_frame.
  - intros i z Hz. rewrite nth_error_map in Hz.
    destruct (nth_error (unsafeZones w) i) as [row |] eqn:Hrow;
      [| discriminate].
    cbn in Hz. injection Hz as <-. now apply recountRow_updatedAt.
Qed.

End Storage.

(** ** Worked instances *)


Lemma NoDup_two_ids (a b : string) : a <> b -> NoDup [a; b].
Proof.
  intros H. constructor.
  - intros [E | []]. now apply H.
  - constructor; [intros [] | constructor].
Defined.

Lemma NoDup_one_id (a : string) : NoDup [a].
Proof. constructor; [intros [] | constructor]. Defined.

(** §8, recompute correctness: the zone at (28.6139, 77.2090) ends with
    [reportCount] 2; the far zone, which held 7, ends with 0. *)
Example recompute_counts_two :
  exists zones w',
    getZonesWithReportCounts Sample.clock Sample.recomputeWorld
      = Resolved zones w' /\
    map zoneDerived (unsafeZones w')
      = [("z1", Some 2, Some "low"); ("z2", Some 0, Some "low")].
Proof. eexists _, _. split; reflexivity. Qed.

(** The witness of C1 on the recompute sample. *)
Lemma getZonesWithReportCounts_recounts_witness :
  exists zones w',
    getZonesWithReportCounts Sample.clock Sample.recomputeWorld
      = Resolved zones w' /\
    reports w' = reports Sample.recomputeWorld /\
    map zoneFrame (unsafeZones w')
      = map zoneFrame (unsafeZones Sample.recomputeWorld) /\
    (forall z, In z (unsafeZones w') ->
       UnsafeZone.reportCount z = Some (geometricCount (reports w') z) /\
       UnsafeZone.riskLevel z
         = Some (riskLevelText (classify (geometricCount (reports w') z)))) /\
    Permutation zones (unsafeZones w').
Proof.
  apply (getZonesWithReportCounts_recounts Sample.clock Sample.recomputeWorld).
  apply NoDup_two_ids. discriminate.
Defined.

(** The witness of C8 on the recompute sample, the second call coming 40
    clock readings and 3 generated ids later. *)
Lemma getZonesWithReportCounts_idempotent_witness :
  exists zones1 w1 zones2 w2,
    getZonesWithReportCounts Sample.clock Sample.recomputeWorld
      = Resolved zones1 w1 /\
    getZonesWithReportCounts Sample.clock
      (mkWorld (unsafeZones w1) (reports w1) 40 3) = Resolved zones2 w2 /\
    map zoneDerived zones2 = map zoneDerived zones1 /\
    map zoneDerived (unsafeZones w2) = map zoneDerived (unsafeZones w1).
Proof.
  apply (getZonesWithReportCounts_idempotent Sample.clock Sample.recomputeWorld).
  apply NoDup_two_ids. discriminate.
Defined.

(** §8, merge within threshold: the report at (28.6139, 77.2090) goes into
    the zone at (28.6140, 77.2091), whose count goes from 5 to 6 and whose
    tier goes to medium; no zone is added. *)
Example merge_within_threshold :
  exists returned w',
    createOrUpdateZone Sample.clock Sample.uuid
      (Sample.candidateAt 2861390000 7720900000) Sample.mergeWorld
      = Resolved returned w' /\
    map zoneDerived (unsafeZones w') = [("z1", Some 6, Some "medium")].
Proof. eexists _, _. split; reflexivity. Qed.

(** §8, merge outside threshold: the report at (28.7000, 77.3000) creates a
    zone with [reportCount] 1 and [riskLevel] low. *)
Example merge_outside_threshold :
  exists returned w',
    createOrUpdateZone Sample.clock Sample.uuid
      (Sample.candidateAt 2870000000 7730000000) Sample.mergeWorld
      = Resolved returned w' /\
    map zoneDerived (unsafeZones w')
      = [("z1", Some 5, Some "low"); ("a-generated", Some 1, Some "low")].
Proof. eexists _, _. split; reflexivity. Qed.

(** §8, approval without coordinates: the report becomes approved and the
    zone table is the one before. *)
Example approve_without_coordinates :
  exists updated w',
    approveReport Sample.clock Sample.uuid "r2" Sample.mergeWorld
      = (Json 200 (Some updated), w') /\
    Report.status updated = Some "approved" /\
    unsafeZones w' = unsafeZones Sample.mergeWorld.
Proof. eexists _, _. repeat split. Qed.


(** The witness of C3 on the merge sample. *)
Lemma createOrUpdateZone_creates_when_no_match_witness :
  exists newZone w',
    createOrUpdateZone Sample.clock Sample.uuid
      (Sample.candidateAt 2870000000 7730000000) Sample.mergeWorld
      = Resolved newZone w' /\
    unsafeZones w' = (unsafeZones Sample.mergeWorld ++ [newZone])%list /\
    reports w' = reports Sample.mergeWorld /\
    UnsafeZone.name newZone = "theft Zone" /\
    UnsafeZone.latitude newZone = 2870000000 /\
    UnsafeZone.longitude newZone = 7730000000 /\
    UnsafeZone.reportCount newZone = Some 1 /\
    UnsafeZone.riskLevel newZone = Some (riskLevelText low) /\
    UnsafeZone.radius newZone = Some 100.
Proof.
  apply (createOrUpdateZone_creates_when_no_match Sample.clock Sample.uuid
           (Sample.candidateAt 2870000000 7730000000)
           2870000000 7730000000 Sample.mergeWorld).
  - reflexivity.
  - reflexivity.
  - reflexivity.
  - reflexivity.
  - right. reflexivity.
  - intros z [<- | []]. reflexivity.
Defined.

(** In binary64, [Number("28.00500000") - Number("28.00000000")] is
    0.004999999999999005, below the 0.005 of the merge test, while the two
    decimals are exactly 0.005 apart. *)
Example merge_test_at_the_boundary :
  withinMergeThreshold (Sample.zoneAt "zA" 2800500000 7700000000 0)
    (Sample.candidateAt 2800000000 7700000000) = true /\
  decimalMergeMatch 2800000000 7700000000
    (Sample.zoneAt "zA" 2800500000 7700000000 0) = false /\
  PrimFloat.ltb
    (Js.absDiff (Js.Number 2800500000) (Js.Number 2800000000))
    0.005%float = true.
Proof. repeat split. Qed.

(** What the merge path does on the boundary sample: the zone at latitude
    28.005 is rewritten, the zone at 28.001 is not. *)
Example merge_at_the_boundary_run :
  exists returned w',
    createOrUpdateZone Sample.clock Sample.uuid
      (Sample.candidateAt 2800000000 7700000000) Sample.boundaryWorld
      = Resolved returned w' /\
    map zoneDerived (unsafeZones w')
      = [("zA", Some 1, Some "low"); ("zB", Some 0, Some "low")].
Proof. eexists _, _. split; reflexivity. Qed.


(** C3 as stated fails on a store holding only the zone at latitude 28.005:
    no zone is strictly less than 0.005 away on exact decimals, and the
    code merges instead of inserting. *)
Lemma createsWhenNoDecimalMatch_fails :
  ~ createsWhenNoDecimalMatch Sample.clock Sample.uuid
      (mkWorld [Sample.zoneAt "zA" 2800500000 7700000000 0] [] 0 0)
      (Sample.candidateAt 2800000000 7700000000).
Proof.
  intros H.
  destruct (H 2800000000 7700000000) as (newZone & w' & Hrun & Hrows).
  - reflexivity.
  - reflexivity.
  - intros z [<- | []]. reflexivity.
  - vm_compute in Hrun. injection Hrun as _ <-.
    cbn in Hrows. discriminate Hrows.
Qed.

(** C4: on the merge sample the stored zone goes to 6 reports and medium,
    and the record handed back still says 5 and low, with the old
    [updatedAt]. *)
Theorem createOrUpdateZone_returns_stale_count :
  exists returned w' stored,
    createOrUpdateZone Sample.clock Sample.uuid
      (Sample.candidateAt 2861390000 7720900000) Sample.mergeWorld
      = Resolved returned w' /\
    unsafeZones w' = [stored] /\
    UnsafeZone.id stored = UnsafeZone.id returned /\
    UnsafeZone.reportCount stored = Some 6 /\
    UnsafeZone.riskLevel stored = Some "medium" /\
    UnsafeZone.updatedAt stored = Some (Sample.clock 0) /\
    UnsafeZone.reportCount returned = Some 5 /\
    UnsafeZone.riskLevel returned = Some "low" /\
    UnsafeZone.updatedAt returned = Some 1600000000000.
Proof. eexists _, _, _. repeat split. Qed.


Example missing_coordinates_run :
  exists returned w',
    createOrUpdateZone Sample.clock Sample.uuid Sample.noCoordinates
      Sample.originWorld = Resolved returned w' /\
    map zoneDerived (unsafeZones w') = [("z0", Some 1, Some "low")].
Proof. eexists _, _. split; reflexivity. Qed.


Example chosen_count_run :
  exists zone w',
    createZone Sample.clock Sample.uuid Sample.chosenCountBody Sample.mergeWorld
      = (Json 201 zone, w') /\
    UnsafeZone.reportCount zone = Some 9999 /\
    UnsafeZone.riskLevel zone = Some "low" /\
    classify 9999 = high.
Proof. eexists _, _. repeat split. Qed.




(** ** Worked instances of the other routes *)

(** The witness of X1: the recompute sample against the same zones holding
    the counts 9999 and 3. *)
Lemma recompute_ignores_stored_counts_witness :
  exists zones1 w1 zones2 w2,
    getZonesWithReportCounts Sample.clock Sample.recomputeWorld
      = Resolved zones1 w1 /\
    getZonesWithReportCounts Sample.clock Demo.otherCountsWorld
      = Resolved zones2 w2 /\
    map zoneDerived zones2 = map zoneDerived zones1 /\
    map zoneDerived (unsafeZones w2) = map zoneDerived (unsafeZones w1).
Proof.
  apply (recompute_ignores_stored_counts Sample.clock Sample.recomputeWorld
           Demo.otherCountsWorld).
  - apply NoDup_two_ids. discriminate.
  - reflexivity.
  - reflexivity.
Defined.

(** The witness of X2: on the recompute sample, whose second zone is far
    from the report, the first report approved twice takes the first zone
    from 0 to 2. *)
Lemma approveReport_twice_counts_twice_witness :
  exists pre post zone1 w1,
    unsafeZones Sample.recomputeWorld
      = (pre ++ Sample.zoneAt "z1" 2861390000 7720900000 0 :: post)%list /\
    approveReport Sample.clock Sample.uuid "r1" Sample.recomputeWorld
      = (Json 200
           (Some (setStatus "approved"
                    (Sample.reportAt "r1" (Some 2861400000) (Some 7720910000)
                       "approved"))), w1) /\
    unsafeZones w1 = (pre ++ zone1 :: post)%list /\
    zoneFrame zone1 = zoneFrame (Sample.zoneAt "z1" 2861390000 7720900000 0) /\
    UnsafeZone.reportCount zone1 = Some (Js.orElse (Some 0) 0 + 1) /\
    forall listed,
      Permutation listed (unsafeZones w1) ->
      exists zone2 w2,
        approveReport Sample.clock Sample.uuid "r1" (withUnsafeZones w1 listed)
          = (Json 200
               (Some (setStatus "approved"
                        (Sample.reportAt "r1" (Some 2861400000)
                           (Some 7720910000) "approved"))), w2) /\
        reports w2 = reports w1 /\
        Permutation (unsafeZones w2) (zone2 :: pre ++ post) /\
        zoneFrame zone2
          = zoneFrame (Sample.zoneAt "z1" 2861390000 7720900000 0) /\
        UnsafeZone.reportCount zone2 = Some (0 + 2).
Proof.
  apply (approveReport_twice_counts_twice Sample.clock Sample.uuid "r1"
           Sample.recomputeWorld
           (Sample.reportAt "r1" (Some 2861400000) (Some 7720910000) "approved")
           2861400000 7720910000
           (Sample.zoneAt "z1" 2861390000 7720900000 0)).
  - reflexivity.
  - reflexivity.
  - reflexivity.
  - apply NoDup_two_ids. discriminate.
  - left. reflexivity.
  - reflexivity.
  - intros y [<- | [<- | []]] Hnear; [reflexivity |].
    vm_compute in Hnear. discriminate Hnear.
  - unfold int4. cbn. lia.
  - unfold int4. cbn. lia.
Defined.

(** The second approval when the store lists the rewritten zone last. *)
Example approve_twice_reordered_run :
  map zoneDerived
    (unsafeZones
       (snd (approveReport Sample.clock Sample.uuid "r1"
               (withUnsafeZones
                  (snd (approveReport Sample.clock Sample.uuid "r1"
                          Sample.recomputeWorld))
                  (rev (unsafeZones
                          (snd (approveReport Sample.clock Sample.uuid "r1"
                                  Sample.recomputeWorld))))))))
  = [("z2", Some 7, Some "medium"); ("z1", Some 2, Some "low")].
Proof. reflexivity. Qed.

Example approve_twice_run :
  map zoneDerived
    (unsafeZones
       (snd (approveReport Sample.clock Sample.uuid "r1"
               (snd (approveReport Sample.clock Sample.uuid "r1"
                       Sample.mergeWorld)))))
  = [("z1", Some 7, Some "medium")].
Proof. reflexivity. Qed.

(** The witness of X3: the far report approved, then the zones listed. *)
Lemma approved_report_counts_in_its_new_zone_witness :
  exists response w1 zones w2 newZone n,
    approveReport Sample.clock Sample.uuid "r7" Demo.farWorld = (response, w1) /\
    getZonesWithReportCounts Sample.clock w1 = Resolved zones w2 /\
    In newZone zones /\
    UnsafeZone.id newZone = Sample.uuid (uuidDraws Demo.farWorld) /\
    UnsafeZone.latitude newZone = 2870000000 /\
    UnsafeZone.longitude newZone = 7730000000 /\
    UnsafeZone.reportCount newZone = Some n /\
    1 <= n.
Proof.
  apply (approved_report_counts_in_its_new_zone Sample.clock Sample.uuid "r7"
           Demo.farWorld
           (Sample.reportAt "r7" (Some 2870000000) (Some 7730000000) "pending")).
  - reflexivity.
  - reflexivity.
  - reflexivity.
  - apply NoDup_one_id.
  - intros [E | []]. discriminate E.
  - intros z [<- | []]. reflexivity.
Defined.

(** The witness of X8: two rows, one with a quote, a comma and a line
    break in its description. *)
Lemma exportCsv_reads_back_witness :
  exportCsv [] = None /\
  exists file,
    exportCsv Demo.exportedRows = Some file /\
    readCsv file = Some (csvHeaders :: Demo.exportedRows) /\
    (forall others,
       (forall row, In row others -> row <> []) ->
       exportCsv others = Some file -> others = Demo.exportedRows).
Proof.
  apply (exportCsv_reads_back Demo.exportedRows).
  - discriminate.
  - intros row [<- | [<- | []]]; discriminate.
Defined.

(** The witness of X11: the signup of asha, then her login. *)
Lemma login_after_signup_witness :
  exists created a',
    signup Sample.clock Sample.uuid Demo.sign Demo.hash Demo.ashaBody
      Demo.accounts
      = (ReplyJson 201 (sessionFor Demo.sign created), a') /\
    User.role created = "user" /\
    ("asha" = EmptyString \/ "s3cret" = EmptyString ->
     login Demo.sign Demo.compare (Some "asha") (Some "s3cret") a'
     = ReplyMessage 400 "Username and password required") /\
    ("asha" = "prashant75" /\ "s3cret" = "prashant232323" ->
     login Demo.sign Demo.compare (Some "asha") (Some "s3cret") a'
     = ReplyJson 200
         (mkSession (Demo.sign (mkAuthUser "admin" "prashant75" "admin"))
            (mkPublicUser "admin" "prashant75" (Some "Admin") "admin"))) /\
    ("asha" <> EmptyString -> "s3cret" <> EmptyString ->
     ~ ("asha" = "prashant75" /\ "s3cret" = "prashant232323") ->
     login Demo.sign Demo.compare (Some "asha") (Some "s3cret") a'
     = ReplyJson 200 (sessionFor Demo.sign created)).
Proof.
  apply (login_after_signup Sample.clock Sample.uuid Demo.sign Demo.hash
           Demo.compare Demo.ashaBody "asha" "s3cret" Demo.accounts).
  - reflexivity.
  - reflexivity.
  - intros [E | []]. discriminate E.
  - intros n. reflexivity.
Defined.

Example signup_then_login_run :
  login Demo.sign Demo.compare (Some "asha") (Some "s3cret")
    (snd (signup Sample.clock Sample.uuid Demo.sign Demo.hash Demo.ashaBody
            Demo.accounts))
  = ReplyJson 200
      (mkSession "jwt.a-generated.user"
         (mkPublicUser "a-generated" "asha" (Some "Asha") "user")).
Proof. reflexivity. Qed.

(** The witness of X12: asha's token on the approval route. *)
Lemma signup_session_is_not_admin_witness :
  adminOnly Demo.verify (@Message (option Report.t))
    (approveReport Sample.clock Sample.uuid "r1")
    (Some ("Bearer " ++ "jwt.a-generated.user")) Sample.mergeWorld
  = (Message 403 "Admin access required", Sample.mergeWorld).
Proof.
  apply (signup_session_is_not_admin Sample.clock Sample.uuid Demo.verify
           Demo.sign Demo.hash (@Message (option Report.t))
           (approveReport Sample.clock Sample.uuid "r1") Sample.mergeWorld
           Demo.ashaBody Demo.accounts
           (snd (signup Sample.clock Sample.uuid Demo.sign Demo.hash
                   Demo.ashaBody Demo.accounts))
           (mkSession "jwt.a-generated.user"
              (mkPublicUser "a-generated" "asha" (Some "Asha") "user"))).
  - reflexivity.
  - reflexivity.
  - reflexivity.
  - discriminate.
Defined.

(** The witness of X14 on the recompute sample. *)
Lemma listZones_rewrites_every_zone_witness :
  exists zones w',
    listZones Sample.clock Sample.recomputeWorld = (ReplyJson 200 zones, w') /\
    Permutation zones (unsafeZones w') /\
    clockReads w'
      = (clockReads Sample.recomputeWorld
         + List.length (unsafeZones Sample.recomputeWorld))%nat /\
    map zoneFrame (unsafeZones w')
      = map zoneFrame (unsafeZones Sample.recomputeWorld) /\
    (forall i z, nth_error (unsafeZones w') i = Some z ->
       UnsafeZone.updatedAt z
       = Some (Sample.clock (clockReads Sample.recomputeWorld + i))).
Proof.
  apply (listZones_rewrites_every_zone Sample.clock Sample.recomputeWorld).
  apply NoDup_two_ids. discriminate.
Defined.

(** The witness of X4: a zone inserted into the merge sample and deleted
    again, and the deletion of an id no zone carries. *)
Lemma deleteZone_spec_witness :
  exists zone w1,
    createUnsafeZone Sample.clock Sample.uuid
      (InsertUnsafeZone.mk "Market" (Some 2861390000) (Some 7720900000)
         None None None) Sample.mergeWorld = Resolved zone w1 /\
    unsafeZones (snd (deleteZone (UnsafeZone.id zone) w1))
      = unsafeZones Sample.mergeWorld /\
    deleteZone "z9" Sample.mergeWorld = (ReplyEmpty 204, Sample.mergeWorld).
Proof.
  eexists _, _. split; [reflexivity |]. split.
  - destruct (deleteZone_spec Sample.clock Sample.uuid "a-generated"
                (mkWorld
                   (unsafeZones Sample.mergeWorld ++
                    [UnsafeZone.mk "a-generated" "Market" 2861390000 7720900000
                       (Some 100) (Some 0) (Some "low")
                       (Some 1700000000000) (Some 1700000000000)])
                   (reports Sample.mergeWorld) 1 1))
      as (w' & Hrun & _ & _ & _ & Hback).
    change (unsafeZones
              (snd (deleteZone "a-generated"
                      (mkWorld
                         (unsafeZones Sample.mergeWorld ++
                          [UnsafeZone.mk "a-generated" "Market" 2861390000
                             7720900000 (Some 100) (Some 0) (Some "low")
                             (Some 1700000000000) (Some 1700000000000)])
                         (reports Sample.mergeWorld) 1 1)))
            = unsafeZones Sample.mergeWorld).
    rewrite Hrun.
    apply (Hback (InsertUnsafeZone.mk "Market" (Some 2861390000)
                    (Some 7720900000) None None None) Sample.mergeWorld
             (UnsafeZone.mk "a-generated" "Market" 2861390000 7720900000
                (Some 100) (Some 0) (Some "low")
                (Some 1700000000000) (Some 1700000000000))).
    + reflexivity.
    + reflexivity.
    + intros [E | []]. discriminate E.
  - destruct (deleteZone_spec Sample.clock Sample.uuid "z9" Sample.mergeWorld)
      as (w' & Hrun & _ & _ & Hnoop & _).
    rewrite Hrun. f_equal. apply Hnoop. intros [E | []]. discriminate E.
Defined.

(** The witness of X5: the second approved report of the recompute sample
    set to resolved, then the zones recomputed. *)
Lemma setReportStatus_spec_witness :
  exists w1 zones w2,
    setReportStatus "r3" "resolved" Sample.recomputeWorld = (ReplyEmpty 204, w1) /\
    unsafeZones w1 = unsafeZones Sample.recomputeWorld /\
    getZonesWithReportCounts Sample.clock w1 = Resolved zones w2 /\
    forall z, In z (unsafeZones w2) ->
      UnsafeZone.reportCount z
      = Some (geometricCount
                (filter (fun r => negb (reportHasId "r3" r))
                        (reports Sample.recomputeWorld)) z).
Proof.
  destruct (setReportStatus_spec Sample.clock "r3" "resolved"
              Sample.recomputeWorld) as (w1 & Hrun & Hzones & _ & Hcount).
  destruct Hcount as (zones & w2 & Hre & Hall).
  - discriminate.
  - apply NoDup_two_ids. discriminate.
  - exists w1, zones, w2. repeat split; assumption.
Defined.

Example unapproved_report_stops_counting :
  map zoneDerived
    (unsafeZones
       (worldOf (getZonesWithReportCounts Sample.clock
                   (snd (setReportStatus "r3" "resolved"
                           Sample.recomputeWorld)))))
  = [("z1", Some 1, Some "low"); ("z2", Some 0, Some "low")].
Proof. reflexivity. Qed.

(** The witness of X6 on the recompute sample. *)
Lemma removeReport_spec_witness :
  exists w1 zones w2,
    removeReport "r3" Sample.recomputeWorld = (ReplyEmpty 204, w1) /\
    approveReport Sample.clock Sample.uuid "r3" w1
      = (Message 404 "Report not found", w1) /\
    getZonesWithReportCounts Sample.clock w1 = Resolved zones w2 /\
    forall z, In z (unsafeZones w2) ->
      UnsafeZone.reportCount z = Some (geometricCount (reports w1) z).
Proof.
  destruct (removeReport_spec Sample.clock Sample.uuid "r3"
              Sample.recomputeWorld) as (w1 & Hrun & _ & _ & H404 & Hcount).
  destruct Hcount as (zones & w2 & Hre & Hall).
  - apply NoDup_two_ids. discriminate.
  - exists w1, zones, w2. repeat split; assumption.
Defined.

(** The witness of X9: the administrator's token under the scheme Basic
    and with trailing words, and asha's token. *)
Lemma adminOnly_spec_witness :
  adminOnly Demo.verify (@ReplyMessage unit) (deleteZone "z1")
    (Some "Basic jwt.admin.admin and more") Sample.mergeWorld
  = deleteZone "z1" Sample.mergeWorld /\
  adminOnly Demo.verify (@ReplyMessage unit) (deleteZone "z1")
    (Some "Bearer jwt.a-generated.user") Sample.mergeWorld
  = (ReplyMessage 403 "Admin access required", Sample.mergeWorld) /\
  adminOnly Demo.verify (@ReplyMessage unit) (deleteZone "z1")
    (Some "Bearer forged") Sample.mergeWorld
  = (ReplyMessage 403 "Invalid token", Sample.mergeWorld).
Proof.
  destruct (adminOnly_spec Demo.verify (@ReplyMessage unit) (deleteZone "z1")
              Sample.mergeWorld) as (_ & _ & _ & Hword).
  split; [| split].
  - apply (Hword "Basic" "jwt.admin.admin" "and more" eq_refl eq_refl).
    + discriminate.
    + right. reflexivity.
  - apply (Hword "Bearer" "jwt.a-generated.user" EmptyString eq_refl eq_refl).
    + discriminate.
    + left. reflexivity.
  - apply (Hword "Bearer" "forged" EmptyString eq_refl eq_refl).
    + discriminate.
    + left. reflexivity.
Defined.

(** The witness of X10: asha signs up naming the role admin, then meera's
    username is asked for again. *)
Lemma signup_spec_witness :
  (exists created a',
     signup Sample.clock Sample.uuid Demo.sign Demo.hash Demo.ashaBody
       Demo.accounts
       = (ReplyJson 201 (sessionFor Demo.sign created), a') /\
     users a' = (users Demo.accounts ++ [created])%list /\
     User.username created = "asha" /\
     User.password created = Demo.hash "s3cret" (saltDraws Demo.accounts) /\
     User.role created = "user" /\
     (NoDup (usernames (users Demo.accounts)) -> NoDup (usernames (users a')))) /\
  signup Sample.clock Sample.uuid Demo.sign Demo.hash
    (mkSignupBody (Some "meera") (Some "x") None None None None) Demo.accounts
  = (ReplyMessage 400 "Username already exists", Demo.accounts).
Proof.
  split.
  - apply (proj2 (signup_spec Sample.clock Sample.uuid Demo.sign Demo.hash
                    Demo.ashaBody Demo.accounts) "asha" "s3cret" eq_refl eq_refl).
    intros [E | []]. discriminate E.
  - apply (proj2 (signup_spec Sample.clock Sample.uuid Demo.sign Demo.hash
                    (mkSignupBody (Some "meera") (Some "x") None None None None)
                    Demo.accounts) "meera" "x" eq_refl eq_refl).
    left. reflexivity.
Defined.

(** The witness of X13: meera updates her profile, and sends an empty
    phone number. *)
Lemma updateProfile_spec_witness :
  (exists a',
     updateProfile (mkAuthUser "u-1" "meera" "user")
       (Some "Meera K") (Some "98100") (Some "98111") Demo.accounts
     = (ReplyJson 200
          (mkProfile "u-1" "meera" (Some "Meera K") (Some "98100")
             (Some "98111") "user"), a')) /\
  updateProfile (mkAuthUser "u-1" "meera" "user")
    (Some "Meera K") (Some EmptyString) (Some "98111") Demo.accounts
  = (ReplyMessage 400 "All fields are required", Demo.accounts).
Proof.
  split.
  - destruct (updateProfile_spec (mkAuthUser "u-1" "meera" "user")
                (Some "Meera K") (Some "98100") (Some "98111") Demo.accounts)
      as (_ & _ & _ & _ & Hok).
    apply (proj2 (Hok "Meera K" "98100" "98111" ltac:(discriminate)
                    eq_refl eq_refl eq_refl ltac:(discriminate)
                    ltac:(discriminate) ltac:(discriminate)) Demo.meera).
    reflexivity.
  - destruct (updateProfile_spec (mkAuthUser "u-1" "meera" "user")
                (Some "Meera K") (Some EmptyString) (Some "98111") Demo.accounts)
      as (_ & _ & _ & Hempty & _).
    apply Hempty; [discriminate |]. right. left. reflexivity.
Defined.
